(** * Mosoblgaz config flow: setup wizard and options wizard

    A shallow embedding of [custom_components/mosoblgaz/config_flow.py]:
    the two flow handlers [MosoblgazFlowHandler] and
    [MosoblgazOptionsFlowHandler], with the handler attributes as an explicit
    state, Python exceptions as an outcome, and the calls made to the
    collaborator API client recorded in a log. *)

From Stdlib Require Import List String ZArith Bool Lia.
Import ListNotations.
Open Scope string_scope.
Set Warnings "-register-all".

(** ** Python values *)

(** The values that travel through the flow: [None], booleans, integers,
    strings and (insertion-ordered, string-keyed) dicts. *)
Inductive value : Type :=
| VNone
| VBool (b : bool)
| VInt (n : Z)
| VStr (s : string)
| VDict (items : list (string * value)).

(** A dict keeps its items in insertion order, as Python's does. *)
Definition dict : Type := list (string * value).

Module Dict.

(** [d.get(k)] as an option; [None] when the key is absent. *)
Fixpoint get {A : Type} (k : string) (d : list (string * A)) : option A :=
  match d with
  | [] => None
  | (k', v) :: d' => if String.eqb k k' then Some v else get k d'
  end.

(** [d[k] = v]: an existing key keeps its position, a new key goes last. *)
Fixpoint set {A : Type} (k : string) (v : A) (d : list (string * A))
  : list (string * A) :=
  match d with
  | [] => [(k, v)]
  | (k', v') :: d' =>
      if String.eqb k k' then (k', v) :: d' else (k', v') :: set k v d'
  end.

(** [del d[k]] for a key that is present. *)
Fixpoint del {A : Type} (k : string) (d : list (string * A))
  : list (string * A) :=
  match d with
  | [] => []
  | (k', v') :: d' =>
      if String.eqb k k' then d' else (k', v') :: del k d'
  end.

(** [{**base, **over}]: the items of [over] are written over [base]. *)
Definition update {A : Type} (base over : list (string * A))
  : list (string * A) :=
  fold_left (fun acc kv => set (fst kv) (snd kv) acc) over base.

Definition keys {A : Type} (d : list (string * A)) : list string :=
  map fst d.

Definition values {A : Type} (d : list (string * A)) : list A :=
  map snd d.

(** The keys of a dict are pairwise distinct. *)
Definition wf {A : Type} (d : list (string * A)) : Prop :=
  NoDup (Dict.keys d).

End Dict.

(** Truth value of an object, as [bool(x)] / [if x] / [not x] use it. *)
Definition truthy (v : value) : bool :=
  match v with
  | VNone => false
  | VBool b => b
  | VInt n => negb (Z.eqb n 0)
  | VStr s => negb (String.eqb s "")
  | VDict items => match items with [] => false | _ :: _ => true end
  end.

Definition dict_truthy (d : dict) : bool :=
  match d with [] => false | _ :: _ => true end.

(** [a == b].  [bool] is a subclass of [int], so [True == 1]; dicts compare
    by content whatever their insertion order. *)
Fixpoint py_eq (a b : value) : bool :=
  match a, b with
  | VNone, VNone => true
  | VBool x, VBool y => Bool.eqb x y
  | VBool x, VInt n => Z.eqb (Z.b2z x) n
  | VInt n, VBool x => Z.eqb n (Z.b2z x)
  | VInt m, VInt n => Z.eqb m n
  | VStr s, VStr t => String.eqb s t
  | VDict xs, VDict ys =>
      Nat.eqb (List.length xs) (List.length ys) &&
      (fix all_in (l : list (string * value)) : bool :=
         match l with
         | [] => true
         | (k, v) :: l' =>
             match Dict.get k ys with
             | Some v' => py_eq v v'
             | None => false
             end && all_in l'
         end) xs
  | _, _ => false
  end.

(** [d.get(k)] as Python returns it: [None] for an absent key. *)
Definition py_get (d : dict) (k : string) : value :=
  match Dict.get k d with Some v => v | None => VNone end.

(** [d.get(k, default)]. *)
Definition py_get_default (d : dict) (k : string) (default : value) : value :=
  match Dict.get k d with Some v => v | None => default end.

(** [all(xs)] and [filter(f, xs)] on a list of values. *)
Definition py_all (xs : list value) : bool := forallb truthy xs.
Definition py_filter (f : value -> bool) (xs : list value) : list value :=
  filter f xs.

(** ** Exceptions *)

(** Modelled from the spec: the exception classes
    [AuthenticationFailedException], [PartialOfflineException] and
    [MosoblgazException] are declared in the package's [__init__] and in
    [mosoblgaz.py], not in [config_flow.py]; the spec gives the client three
    kinds of failure, an authentication error, a partial-outage error and a
    generic domain error.  [MosoblgazException] stands for an instance that
    is neither of the first two.  The other constructors are the built-in
    exceptions the flow can raise itself, and [OtherException] any exception
    no clause of the flow names. *)
Inductive exn : Type :=
| AuthenticationFailedException
| PartialOfflineException
| MosoblgazException
| KeyError
| IndexError
| TypeError
| AttributeError
| NameError
| OtherException.

(** ** Flow results and schemas *)

Inductive validator : Type := cv_boolean | cv_positive_int | cv_string.

(** One marker of a voluptuous schema: [vol.Optional(key, default=...)] or
    [vol.Required(key)], with its validator. *)
Record marker : Type := Marker {
  m_key : string;
  m_required : bool;
  m_default : option value;
  m_validator : validator
}.

Definition schema : Type := list marker.

Definition Optional (key : string) (default : value) (v : validator) : marker :=
  Marker key false (Some default) v.

(** What a step hands back to the flow engine. *)
Inductive FlowResult : Type :=
| ShowForm (step_id : string) (data_schema : schema)
           (errors : option dict) (description_placeholders : option dict)
| CreateEntry (title : string) (data : dict)
| Abort (reason : string).

(** ** The handler state and the world around it *)

(** The attributes [__init__] of [MosoblgazFlowHandler] sets (all [None]). *)
Record Handler : Type := mkHandler {
  _contracts : option dict;
  _last_contract_id : option string;
  _current_config : option dict
}.

Definition Handler_init : Handler := mkHandler None None None.

(** A call made to the collaborator API client. *)
Inductive api_call : Type :=
| ApiConstruct (username password : value)
| ApiAuthenticate
| ApiFetchContracts (with_data : bool).

Record World : Type := mkWorld {
  handler : Handler;
  api_log : list api_call
}.

Inductive outcome (A : Type) : Type :=
| Return (a : A)
| Raise (e : exn)
| OutOfFuel.
Arguments Return {A} a.
Arguments Raise {A} e.
Arguments OutOfFuel {A}.

(** Computations that read and write the world and may raise. *)
Definition M (A : Type) : Type := World -> outcome A * World.

Definition ret {A} (a : A) : M A := fun w => (Return a, w).
Definition raise {A} (e : exn) : M A := fun w => (Raise e, w).
Definition bind {A B} (m : M A) (k : A -> M B) : M B :=
  fun w =>
    match m w with
    | (Return a, w') => k a w'
    | (Raise e, w') => (Raise e, w')
    | (OutOfFuel, w') => (OutOfFuel, w')
    end.

Declare Scope flow_scope.
Delimit Scope flow_scope with flow.
Notation "x <- m ;; k" := (bind m (fun x => k))
  (at level 61, m at next level, right associativity) : flow_scope.
Notation "m ;;; k" := (bind m (fun _ => k))
  (at level 61, right associativity) : flow_scope.
Open Scope flow_scope.

(** [try: body except ...]: [handlers e] is the clause that catches [e]. *)
Definition try_except {A} (body : M A) (handlers : exn -> option (M A)) : M A :=
  fun w =>
    match body w with
    | (Raise e, w') =>
        match handlers e with
        | Some h => h w'
        | None => (Raise e, w')
        end
    | r => r
    end.

Definition get_handler : M Handler := fun w => (Return (handler w), w).
Definition put_handler (h : Handler) : M unit :=
  fun w => (Return tt, mkWorld h (api_log w)).
Definition log_call (c : api_call) : M unit :=
  fun w => (Return tt, mkWorld (handler w) (api_log w ++ [c])).

(** [d[k]]: raises [KeyError] for an absent key. *)
Definition py_getitem (d : dict) (k : string) : M value :=
  match Dict.get k d with
  | Some v => ret v
  | None => raise KeyError
  end.

(** ["..." + x]: concatenation with a [str] left operand. *)
Definition py_str_add (s : string) (x : value) : M string :=
  match x with
  | VStr t => ret (s ++ t)
  | _ => raise TypeError
  end.

(** [self.async_abort(...)] of the flow engine, declared as
    [async_abort(self, *, reason, ...)]: the reason is taken by keyword
    only.  [positional] are the arguments a call passes by position and
    [reason] the one it passes by keyword; a call with a positional
    argument, or without the keyword, raises [TypeError]. *)
Definition async_abort (positional : list string) (reason : option string)
  : M FlowResult :=
  match positional, reason with
  | [], Some r => ret (Abort r)
  | _, _ => raise TypeError
  end.

(** ** What the module takes from outside *)

(** Constants of [homeassistant.const] and [homeassistant.config_entries]. *)
Definition CONF_USERNAME : string := "username".
Definition CONF_PASSWORD : string := "password".
Definition CONF_SCAN_INTERVAL : string := "scan_interval".
Definition CONF_TIMEOUT : string := "timeout".
Definition SOURCE_IMPORT : string := "import".

(** Constants of this module. *)
Definition CONF_ENABLE_CONTRACT : string := "enable_contract".
Definition CONF_ADD_ALL_CONTRACTS : string := "add_all_contracts".

(** The names [config_flow.py] imports from the package's [__init__], whose
    values it does not fix, and the one attribute it reads without ever
    assigning it.  [schema_contract] is what the lookup
    [self.schema_contract] yields through the base class
    [config_entries.ConfigFlow]; [None] is the lookup failing with
    [AttributeError]. *)
Record Package : Type := mkPackage {
  CONF_METERS : string;
  CONF_INVOICES : string;
  CONF_CONTRACTS : string;
  CONF_INVERT_INVOICES : string;
  DEFAULT_INVERT_INVOICES : value;
  DEFAULT_TIMEOUT_total_seconds : value;
  DEFAULT_SCAN_INTERVAL_total_seconds : value;
  AUTHENTICATION_SUBCONFIG : schema;
  schema_contract : option schema
}.

(** The client class [MosoblgazAPI] lives in [mosoblgaz.py], not in this
    module; how it answers is a parameter, a function of the credentials the
    client was built with: the constructor and [authenticate] either raise or
    return, [fetch_contracts] raises or returns the contract mapping. *)
Record MosoblgazAPI : Type := mkAPI {
  api_construct : value -> value -> option exn;
  api_authenticate : value -> value -> option exn;
  api_fetch_contracts : value -> value -> bool -> exn + dict
}.

(** A config entry of the host platform, as far as the flows read it. *)
Record ConfigEntry : Type := mkConfigEntry {
  data : dict;
  options : dict;
  version : Z;
  source : string
}.

(** ** MosoblgazFlowHandler *)

Section FlowHandler.

Variable pkg : Package.
Variable api : MosoblgazAPI.
(** What [self._async_current_entries()] returns. *)
Variable current_entries : list ConfigEntry.

Definition schema_user : schema := AUTHENTICATION_SUBCONFIG pkg.

(** Attribute assignments on [self]. *)
Definition set_contracts (v : option dict) : M unit :=
  self <- get_handler ;;
  put_handler (mkHandler v (_last_contract_id self) (_current_config self)).
Definition set_last_contract_id (v : option string) : M unit :=
  self <- get_handler ;;
  put_handler (mkHandler (_contracts self) v (_current_config self)).
Definition set_current_config (v : option dict) : M unit :=
  self <- get_handler ;;
  put_handler (mkHandler (_contracts self) (_last_contract_id self) v).

(** [self.schema_contract]. *)
Definition get_schema_contract : M schema :=
  match schema_contract pkg with
  | Some s => ret s
  | None => raise AttributeError
  end.

(** The client object remembers its credentials; every call is logged. *)
Definition MosoblgazAPI_new (username password : value) : M (value * value) :=
  log_call (ApiConstruct username password) ;;;
  match api_construct api username password with
  | Some e => raise e
  | None => ret (username, password)
  end.

Definition authenticate (client : value * value) : M unit :=
  log_call ApiAuthenticate ;;;
  match api_authenticate api (fst client) (snd client) with
  | Some e => raise e
  | None => ret tt
  end.

Definition fetch_contracts (client : value * value) (with_data : bool) : M dict :=
  log_call (ApiFetchContracts with_data) ;;;
  match api_fetch_contracts api (fst client) (snd client) with_data with
  | inl e => raise e
  | inr contracts => ret contracts
  end.

Definition _check_entry_exists (username : value) : M bool :=
  ret (existsb
         (fun config_entry =>
            py_eq (py_get (data config_entry) CONF_USERNAME) username)
         current_entries).

(** [self._current_config[CONF_CONTRACTS]]. *)
Definition current_decisions : M dict :=
  self <- get_handler ;;
  match _current_config self with
  | None => raise TypeError
  | Some cfg =>
      v <- py_getitem cfg (CONF_CONTRACTS pkg) ;;
      match v with
      | VDict decisions => ret decisions
      | _ => raise TypeError
      end
  end.

(** [self._current_config[CONF_CONTRACTS][contract_id] = contract_config]:
    the inner dict is changed in place. *)
Definition record_decision (contract_id : string) (contract_config : value)
  : M unit :=
  decisions <- current_decisions ;;
  self <- get_handler ;;
  match _current_config self with
  | None => raise TypeError
  | Some cfg =>
      set_current_config
        (Some (Dict.set (CONF_CONTRACTS pkg)
                 (VDict (Dict.set contract_id contract_config decisions)) cfg))
  end.

(** The head of [async_step_contract]: on the first visit the first key
    of [self._contracts] is taken out and remembered, later visits read
    the remembered one. *)
Definition select_contract_id : M string :=
  self <- get_handler ;;
  match _last_contract_id self with
  | None =>
      match _contracts self with
      | None => raise AttributeError
      | Some contracts =>
          match Dict.keys contracts with
          | [] => raise IndexError
          | contract_id :: _ =>
              set_contracts (Some (Dict.del contract_id contracts)) ;;;
              set_last_contract_id (Some contract_id) ;;;
              ret contract_id
          end
      end
  | Some last => ret last
  end.

(** The value stored for a submitted contract form. *)
Definition contract_config_of (user_input : dict) : value :=
  if truthy (py_get user_input CONF_ENABLE_CONTRACT)
  then VDict (Dict.set (CONF_INVOICES pkg)
                (py_get user_input (CONF_INVOICES pkg))
                (Dict.set (CONF_METERS pkg)
                   (py_get user_input (CONF_METERS pkg)) []))
  else VBool false.

(** [if self._contracts:] *)
Definition contracts_remain : M bool :=
  self <- get_handler ;;
  ret match _contracts self with
      | Some contracts => dict_truthy contracts
      | None => false
      end.

(** [async_step_contract].  The step calls itself; [fuel] bounds the depth
    of that recursion. *)
Fixpoint async_step_contract_fuel (fuel : nat) (user_input : option dict)
  : M FlowResult :=
  match fuel with
  | O => fun w => (OutOfFuel, w)
  | S fuel' =>
      contract_id <- select_contract_id ;;
      match user_input with
      | None =>
          data_schema <- get_schema_contract ;;
          ret (ShowForm "contract" data_schema None
                 (Some [("code", VStr contract_id)]))
      | Some user_input =>
          let contract_config := contract_config_of user_input in
          record_decision contract_id contract_config ;;;
          remain <- contracts_remain ;;
          if remain
          then async_step_contract_fuel fuel' None
          else
            decisions <- current_decisions ;;
            if py_all (py_filter (fun x => negb (truthy x))
                         (Dict.values decisions))
            then async_abort ["nothing_enabled"] None
            else
              (* title='User: ' + u: no name [u] is bound, neither in the
                 function nor in the module *)
              raise NameError
      end
  end.

(** Two levels are all the step ever uses (see [async_step_contract_total]). *)
Definition async_step_contract (user_input : option dict) : M FlowResult :=
  async_step_contract_fuel 2 user_input.

Definition async_step_user (user_input : option dict) : M FlowResult :=
  match user_input with
  | None => ret (ShowForm "user" schema_user None None)
  | Some user_input =>
      username <- py_getitem user_input CONF_USERNAME ;;
      found <- _check_entry_exists username ;;
      if found then async_abort ["already_exists"] None
      else
        r <- try_except
               (password <- py_getitem user_input CONF_PASSWORD ;;
                client <- MosoblgazAPI_new username password ;;
                authenticate client ;;;
                contracts <- fetch_contracts client false ;;
                if negb (dict_truthy contracts)
                then (aborted <- async_abort ["contracts_missing"] None ;;
                      ret (inl aborted))
                else ret (inr contracts))
               (fun e =>
                  match e with
                  | AuthenticationFailedException =>
                      Some (ret (inl (ShowForm "user" schema_user
                                        (Some [("base", VStr "invalid_credentials")])
                                        None)))
                  | PartialOfflineException =>
                      Some (aborted <- async_abort ["partial_offline"] None ;;
                            ret (inl aborted))
                  | MosoblgazException =>
                      Some (aborted <- async_abort ["api_error"] None ;;
                            ret (inl aborted))
                  | _ => None
                  end) ;;
        match r with
        | inl result => ret result
        | inr contracts =>
            if negb (truthy (py_get user_input CONF_ADD_ALL_CONTRACTS))
            then
              set_current_config
                (Some (Dict.set (CONF_CONTRACTS pkg) (VDict [])
                         (Dict.update [] user_input))) ;;;
              set_contracts (Some contracts) ;;;
              async_step_contract None
            else
              title <- py_str_add "User: " username ;;
              ret (CreateEntry title user_input)
        end
  end.

Definition async_step_import (user_input : option dict) : M FlowResult :=
  match user_input with
  | None => async_abort ["unknown_error"] None
  | Some user_input =>
      username <- py_getitem user_input CONF_USERNAME ;;
      found <- _check_entry_exists username ;;
      if found then async_abort ["already_exists"] None
      else
        title <- py_str_add "User: " username ;;
        ret (CreateEntry title [(CONF_USERNAME, username)])
  end.

End FlowHandler.

(** ** MosoblgazOptionsFlowHandler *)

Module OptionsFlow.
Section OptionsFlowHandler.

Variable pkg : Package.
(** [self.config_entry], bound by [__init__]. *)
Variable config_entry : ConfigEntry.

Definition async_step_import (user_input : option dict) : FlowResult :=
  ShowForm "import" [Optional "not_in_use" (VBool false) cv_boolean]
    None None.

(** The defaults [async_step_user] resolves before it builds the form. *)
Definition resolved_options : dict :=
  let options := if dict_truthy (options config_entry)
                 then options config_entry else [] in
  if Z.eqb (version config_entry) 1
  then Dict.update (Dict.update [] (data config_entry)) options
  else options.

Definition default_invert_invoices : value :=
  py_get_default resolved_options (CONF_INVERT_INVOICES pkg)
    (DEFAULT_INVERT_INVOICES pkg).
Definition default_timeout : value :=
  py_get_default resolved_options CONF_TIMEOUT
    (DEFAULT_TIMEOUT_total_seconds pkg).
Definition default_scan_interval : value :=
  py_get_default resolved_options CONF_SCAN_INTERVAL
    (DEFAULT_SCAN_INTERVAL_total_seconds pkg).

Definition async_step_user (user_input : option dict) : FlowResult :=
  match user_input with
  | Some user_input => CreateEntry "" user_input
  | None =>
      ShowForm "user"
        [Optional (CONF_INVERT_INVOICES pkg) default_invert_invoices cv_boolean;
         Optional CONF_TIMEOUT default_timeout cv_positive_int;
         Optional CONF_SCAN_INTERVAL default_scan_interval cv_positive_int]
        None None
  end.

Definition async_step_init (user_input : option dict) : FlowResult :=
  if String.eqb (source config_entry) SOURCE_IMPORT
  then async_step_import user_input
  else async_step_user user_input.

End OptionsFlowHandler.
End OptionsFlow.

(** * Specification vocabulary *)

(** A relation between the world before and after that every run of [m]
    satisfies, however it ends. *)
Definition preserves {A} (R : World -> World -> Prop) (m : M A) : Prop :=
  forall w, R w (snd (m w)).

(** What holds of every value [m] returns. *)
Definition post {A} (m : M A) (Q : A -> Prop) : Prop :=
  forall w a, fst (m w) = Return a -> Q a.

(** [m] returns or raises: it never runs out of fuel. *)
Definition terminates {A} (m : M A) : Prop :=
  forall w, fst (m w) <> OutOfFuel.

(** The world once [contract_config] is stored under [contract_id]. *)
Definition with_decision (pkg : Package) (contract_id : string)
  (contract_config : value)
  (cfg decisions : dict) (w : World) : World :=
  mkWorld
    (mkHandler (_contracts (handler w)) (_last_contract_id (handler w))
       (Some (Dict.set (CONF_CONTRACTS pkg)
                (VDict (Dict.set contract_id contract_config decisions)) cfg)))
    (api_log w).

(** [self._current_config[CONF_CONTRACTS]] as a pure reading of the state. *)
Definition decisions_of (pkg : Package) (h : Handler) : option dict :=
  match _current_config h with
  | Some cfg =>
      match Dict.get (CONF_CONTRACTS pkg) cfg with
      | Some (VDict decisions) => Some decisions
      | _ => None
      end
  | None => None
  end.

(** [_last_contract_id], once [c], is still [c] afterwards. *)
Definition keeps_id (c : string) (w w' : World) : Prop :=
  _last_contract_id (handler w) = Some c ->
  _last_contract_id (handler w') = Some c.

(** No current entry carries [username]. *)
Definition unregistered (entries : list ConfigEntry) (username : value) : Prop :=
  forall e, In e entries ->
            py_eq (py_get (data e) CONF_USERNAME) username = false.

(** The calls a submission makes that gets as far as the contract listing. *)
Definition full_login (username password : value) : list api_call :=
  [ApiConstruct username password; ApiAuthenticate; ApiFetchContracts false].

(** The flow engine handing a run of submitted contract forms to the
    contract step, one after the other; the responses and the last world. *)
Fixpoint submit_contract_forms (pkg : Package) (inputs : list dict) (w : World)
  : list (outcome FlowResult) * World :=
  match inputs with
  | [] => ([], w)
  | ui :: inputs' =>
      let (r, w') := async_step_contract pkg (Some ui) w in
      let (rs, w'') := submit_contract_forms pkg inputs' w' in
      (r :: rs, w'')
  end.

(** The contract step is stuck on [c]: [c] is remembered, [pending] is what
    is left to decide, and no decision is on record for [other]. *)
Definition stuck_on (pkg : Package) (c other : string) (pending : dict)
  (w : World) : Prop :=
  _last_contract_id (handler w) = Some c /\
  _contracts (handler w) = Some pending /\
  exists decisions,
    decisions_of pkg (handler w) = Some decisions /\
    Dict.get other decisions = None.

(** How a form default comes out of options, data and the fixed default. *)
Definition resolves_to (entry : ConfigEntry) (key : string) (fixed : value)
  (default : value) : Prop :=
  (forall v, Dict.get key (options entry) = Some v -> default = v) /\
  (forall v, Dict.get key (options entry) = None ->
             Dict.get key (data entry) = Some v -> default = v) /\
  (Dict.get key (options entry) = None ->
   Dict.get key (data entry) = None -> default = fixed).

(** ** Scenarios *)

(** A package with the field names of the configuration schema; [sc] is what
    [self.schema_contract] resolves to. *)
Definition sample_package (sc : option schema) : Package :=
  mkPackage "meters" "invoices" "contracts" "invert_invoices"
    (VBool false) (VInt 30) (VInt 3600)
    [Marker CONF_USERNAME true None cv_string;
     Marker CONF_PASSWORD true None cv_string]
    sc.

Definition contract_form : schema :=
  [Optional CONF_ENABLE_CONTRACT (VBool true) cv_boolean].

(** A client that accepts every login and lists [contracts]. *)
Definition api_listing (contracts : dict) : MosoblgazAPI :=
  mkAPI (fun _ _ => None) (fun _ _ => None) (fun _ _ _ => inr contracts).

(** A client whose login succeeds and whose contract listing fails with [e]. *)
Definition api_fetch_failing (e : exn) : MosoblgazAPI :=
  mkAPI (fun _ _ => None) (fun _ _ => None) (fun _ _ _ => inl e).

Definition world0 : World := mkWorld Handler_init [].

Definition alice (add_all_contracts : bool) : dict :=
  [(CONF_USERNAME, VStr "alice"); (CONF_PASSWORD, VStr "x");
   (CONF_ADD_ALL_CONTRACTS, VBool add_all_contracts)].

Definition entry_of (username : string) : ConfigEntry :=
  mkConfigEntry [(CONF_USERNAME, VStr username)] [] 2 "user".

(** The state the flow is in when the form of the first of two contracts is
    to be answered. *)
Definition world_two_contracts : World :=
  mkWorld
    (mkHandler (Some [("C2", VDict [])]) (Some "C1")
       (Some (alice false ++ [("contracts", VDict [])])%list))
    (full_login (VStr "alice") (VStr "x")).

(** The state with the pending list exhausted, a disabled contract on
    record and an enabled one being submitted. *)
Definition world_mixed_decisions : World :=
  mkWorld
    (mkHandler (Some []) (Some "C2")
       (Some (alice false ++ [("contracts", VDict [("C1", VBool false)])])%list))
    (full_login (VStr "alice") (VStr "x")).

(** A version-1 entry whose data hold all three fields and whose options
    override the timeout only. *)
Definition legacy_entry : ConfigEntry :=
  mkConfigEntry
    [(CONF_USERNAME, VStr "alice"); ("invert_invoices", VBool true);
     (CONF_TIMEOUT, VInt 10); (CONF_SCAN_INTERVAL, VInt 600)]
    [(CONF_TIMEOUT, VInt 45)]
    1 "user".

(** ** Vocabulary of the further properties *)

(** The log of client calls is the same afterwards. *)
Definition same_log (w w' : World) : Prop := api_log w' = api_log w.

(** What the [except] clauses of [async_step_user] make of an exception
    [e] that a client call raised.  The clauses for
    [PartialOfflineException] and [MosoblgazException] call [async_abort]
    with a positional reason, which raises [TypeError]. *)
Definition on_client_error (pkg : Package) (e : exn) : outcome FlowResult :=
  match e with
  | AuthenticationFailedException =>
      Return (ShowForm "user" (schema_user pkg)
                (Some [("base", VStr "invalid_credentials")]) None)
  | PartialOfflineException => Raise TypeError
  | MosoblgazException => Raise TypeError
  | _ => Raise e
  end.

(** The world with [calls] added to the log of client calls. *)
Definition logged (calls : list api_call) (w : World) : World :=
  mkWorld (handler w) (api_log w ++ calls).

(** The pending registration state [async_step_user] sets up before it
    enters the contract step. *)
Definition pending_state (pkg : Package) (ui contracts : dict) (w : World)
  : World :=
  mkWorld
    (mkHandler (Some contracts) (_last_contract_id (handler w))
       (Some (Dict.set (CONF_CONTRACTS pkg) (VDict []) (Dict.update [] ui))))
    (api_log w).

(** Some current entry carries the string [u] as its username. *)
Definition registered (entries : list ConfigEntry) (u : string) : Prop :=
  exists e, In e entries /\ Dict.get CONF_USERNAME (data e) = Some (VStr u).

(** A client whose constructor raises [e]. *)
Definition api_construct_failing (e : exn) : MosoblgazAPI :=
  mkAPI (fun _ _ => Some e) (fun _ _ => None) (fun _ _ _ => inr []).

(** A client whose [authenticate] raises [e]. *)
Definition api_auth_failing (e : exn) : MosoblgazAPI :=
  mkAPI (fun _ _ => None) (fun _ _ => Some e) (fun _ _ _ => inr []).

(** [r] is the contract form, with the schema [self.schema_contract]
    resolves to and some contract id as its placeholder. *)
Definition is_contract_form (pkg : Package) (r : FlowResult) : Prop :=
  exists s c,
    schema_contract pkg = Some s /\
    r = ShowForm "contract" s None (Some [("code", VStr c)]).

(** The results the user step can hand back. *)
Definition user_step_result (pkg : Package) (r : FlowResult) : Prop :=
  match r with
  | Abort reason => False
  | ShowForm step_id data_schema errors placeholders =>
      (step_id = "user" /\ data_schema = schema_user pkg /\
       placeholders = None /\
       (errors = None \/
        errors = Some [("base", VStr "invalid_credentials")])) \/
      is_contract_form pkg r
  | CreateEntry title payload => True
  end.

(** A client with no contract but [k]. *)
Definition api_single (k : string) : MosoblgazAPI :=
  api_listing [(k, VDict [])].

(** An entry of the current version whose options set the timeout and whose
    data carry another one. *)
Definition current_entry : ConfigEntry :=
  mkConfigEntry
    [(CONF_USERNAME, VStr "alice"); (CONF_TIMEOUT, VInt 10)]
    [(CONF_TIMEOUT, VInt 45)]
    2 "user".

(** * Proofs *)

(** ** Proof tools *)

(** The same, for a [match] in a hypothesis. *)
Ltac case_match_in H :=
  match type of H with
  | context [match ?x with _ => _ end] =>
      lazymatch x with
      | context [match _ with _ => _ end] => fail
      | _ => let E := fresh "E" in destruct x eqn:E
      end
  end.

(** Unfolds the monad's plumbing. *)
Ltac unfold_flow :=
  unfold set_contracts, set_last_contract_id, set_current_config,
    get_schema_contract, py_getitem, py_str_add in *;
  unfold bind, ret, raise, try_except, get_handler, put_handler, log_call in *.

(** Splits on a [match] scrutinee of the goal that holds no [match] itself. *)
Ltac case_match :=
  match goal with
  | |- context [match ?x with _ => _ end] =>
      lazymatch x with
      | context [match _ with _ => _ end] => fail
      | _ => let E := fresh "E" in destruct x eqn:E
      end
  end.

(** ** Dicts *)

Module DictFacts.

Lemma get_set_same {A} (k : string) (v : A) d :
  Dict.get k (Dict.set k v d) = Some v.
Proof.
  induction d as [|[k' v'] d IH]; simpl.
  - now rewrite String.eqb_refl.
  - destruct (String.eqb k k') eqn:E; simpl; rewrite E; auto.
Qed.

Lemma get_set_other {A} (k k0 : string) (v : A) d :
  k <> k0 -> Dict.get k (Dict.set k0 v d) = Dict.get k d.
Proof.
  intros Hne. induction d as [|[k' v'] d IH]; simpl.
  - destruct (String.eqb_spec k k0); [contradiction | reflexivity].
  - destruct (String.eqb_spec k0 k') as [->|Hk0]; simpl.
    + destruct (String.eqb_spec k k'); [contradiction | reflexivity].
    + now rewrite IH.
Qed.

Lemma get_None_not_in {A} (k : string) (d : list (string * A)) :
  Dict.get k d = None <-> ~ In k (Dict.keys d).
Proof.
  induction d as [|[k' v'] d IH]; simpl.
  - tauto.
  - destruct (String.eqb_spec k k') as [->|Hne].
    + split; [discriminate | intros H; exfalso; apply H; now left].
    + rewrite IH. split; [intros H [Heq|Hin]; [congruence | auto] | tauto].
Qed.

(** Writing [over] onto [base]: a key of [over] gets its value from there,
    any other key keeps the one of [base]. *)
Lemma get_update {A} (k : string) (over base : list (string * A)) :
  Dict.wf over ->
  Dict.get k (Dict.update base over) =
  match Dict.get k over with
  | Some v => Some v
  | None => Dict.get k base
  end.
Proof.
  unfold Dict.update, Dict.wf. revert base.
  induction over as [|[k' v'] over IH]; intros base Hwf; simpl.
  - reflexivity.
  - inversion Hwf as [|? ? Hnotin Hwf']; subst.
    rewrite IH by assumption.
    destruct (String.eqb_spec k k') as [->|Hne].
    + apply get_None_not_in in Hnotin. rewrite Hnotin.
      apply get_set_same.
    + destruct (Dict.get k over); [reflexivity|].
      now apply get_set_other.
Qed.

Lemma get_update_nil {A} (k : string) (d : list (string * A)) :
  Dict.wf d -> Dict.get k (Dict.update [] d) = Dict.get k d.
Proof.
  intros Hwf. rewrite get_update by assumption.
  now destruct (Dict.get k d).
Qed.

End DictFacts.

Lemma py_eq_str (s t : string) : py_eq (VStr s) (VStr t) = String.eqb s t.
Proof. reflexivity. Qed.

(** ** The monad *)

Lemma bind_ext {A B} (m : M A) (k k' : A -> M B) (w : World) :
  (forall a w', k a w' = k' a w') -> bind m k w = bind m k' w.
Proof.
  intros H. unfold bind. destruct (m w) as [[a| |] w']; auto.
Qed.

Section MonadRules.

Context {A B : Type}.
Variable R : World -> World -> Prop.
Hypothesis R_refl : forall w, R w w.
Hypothesis R_trans : forall w1 w2 w3, R w1 w2 -> R w2 w3 -> R w1 w3.

Lemma preserves_ret (a : A) : preserves R (ret a).
Proof. intros w. apply R_refl. Qed.

Lemma preserves_raise (e : exn) : preserves R (@raise A e).
Proof. intros w. apply R_refl. Qed.

Lemma preserves_bind (m : M A) (k : A -> M B) :
  preserves R m -> (forall a, preserves R (k a)) -> preserves R (bind m k).
Proof.
  intros Hm Hk w. unfold bind. specialize (Hm w).
  destruct (m w) as [[a| |] w']; simpl in *; auto.
  eapply R_trans; [exact Hm | apply Hk].
Qed.

Lemma preserves_try_except (body : M A) (handlers : exn -> option (M A)) :
  preserves R body ->
  (forall e h, handlers e = Some h -> preserves R h) ->
  preserves R (try_except body handlers).
Proof.
  intros Hb Hh w. unfold try_except. specialize (Hb w).
  destruct (body w) as [[a|e|] w']; simpl in *; auto.
  destruct (handlers e) as [h|] eqn:E; simpl; auto.
  eapply R_trans; [exact Hb | eapply Hh; eauto].
Qed.

End MonadRules.

Lemma post_ret {A} (a : A) (Q : A -> Prop) : Q a -> post (ret a) Q.
Proof. intros H w a' E. simpl in E. now inversion E; subst. Qed.

Lemma post_raise {A} (e : exn) (Q : A -> Prop) : post (raise e) Q.
Proof. intros w a E. discriminate E. Qed.

Lemma post_bind {A B} (m : M A) (k : A -> M B) (Q : B -> Prop) :
  (forall a, post (k a) Q) -> post (bind m k) Q.
Proof.
  intros Hk w b. unfold bind.
  destruct (m w) as [[a| |] w'] eqn:E; simpl; try discriminate.
  apply Hk.
Qed.

Lemma terminates_ret {A} (a : A) : terminates (ret a).
Proof. intros w. discriminate. Qed.

Lemma terminates_raise {A} (e : exn) : terminates (@raise A e).
Proof. intros w. discriminate. Qed.

Lemma terminates_bind {A B} (m : M A) (k : A -> M B) :
  terminates m -> (forall a, terminates (k a)) -> terminates (bind m k).
Proof.
  intros Hm Hk w. unfold bind. specialize (Hm w).
  destruct (m w) as [[a| |] w']; simpl in *;
    [apply Hk | discriminate | contradiction].
Qed.

Lemma terminates_try_except {A} (body : M A) handlers :
  terminates body ->
  (forall e h, handlers e = Some h -> terminates h) ->
  terminates (try_except body handlers).
Proof.
  intros Hb Hh w. unfold try_except. specialize (Hb w).
  destruct (body w) as [[a|e|] w']; simpl in *; auto.
  destruct (handlers e) as [h|] eqn:E; [eapply Hh; eauto | discriminate].
Qed.

(** A call of [async_abort] with a positional argument raises. *)
Lemma async_abort_positional (r : string) (rs : list string) reason :
  async_abort (r :: rs) reason = raise TypeError.
Proof. reflexivity. Qed.

Lemma terminates_async_abort positional reason :
  terminates (async_abort positional reason).
Proof.
  intros w. unfold async_abort.
  destruct positional, reason; discriminate.
Qed.

Lemma preserves_async_abort (R : World -> World -> Prop) positional reason :
  (forall w, R w w) -> preserves R (async_abort positional reason).
Proof.
  intros R_refl w. unfold async_abort.
  destruct positional, reason; apply R_refl.
Qed.

Create HintDb flow.
#[local] Hint Resolve terminates_ret terminates_raise : flow.
#[local] Hint Resolve post_ret post_raise : flow.

(** ** The contract step: termination *)

Section ContractStep.

Variable pkg : Package.

(** A call without input never calls the step again. *)
Lemma async_step_contract_no_input (n m : nat) (w : World) :
  async_step_contract_fuel pkg (S n) None w =
  async_step_contract_fuel pkg (S m) None w.
Proof. reflexivity. Qed.

(** Any fuel from two on gives the result of [async_step_contract]. *)
Lemma async_step_contract_fuel_enough (n : nat) ui (w : World) :
  async_step_contract_fuel pkg (S (S n)) ui w = async_step_contract pkg ui w.
Proof.
  unfold async_step_contract.
  destruct ui as [ui|]; [|reflexivity].
  cbn [async_step_contract_fuel].
  apply bind_ext; intros cid w1.
  apply bind_ext; intros _ w2.
  apply bind_ext; intros remain w3.
  destruct remain; reflexivity.
Qed.

Lemma terminates_get_handler : terminates get_handler.
Proof. intros w. discriminate. Qed.

Lemma terminates_put_handler h : terminates (put_handler h).
Proof. intros w. discriminate. Qed.

Lemma terminates_select_contract_id : terminates select_contract_id.
Proof.
  intros w. unfold select_contract_id. unfold_flow. simpl.
  repeat case_match; simpl; discriminate.
Qed.

Lemma terminates_current_decisions : terminates (current_decisions pkg).
Proof.
  intros w. unfold current_decisions. unfold_flow. simpl.
  repeat case_match; simpl; discriminate.
Qed.

Lemma terminates_record_decision cid v : terminates (record_decision pkg cid v).
Proof.
  unfold record_decision. apply terminates_bind.
  - apply terminates_current_decisions.
  - intros d w. unfold_flow. simpl. repeat case_match; simpl; discriminate.
Qed.

Lemma terminates_contracts_remain : terminates contracts_remain.
Proof. intros w. discriminate. Qed.

Lemma terminates_get_schema_contract : terminates (get_schema_contract pkg).
Proof.
  intros w. unfold get_schema_contract.
  destruct (schema_contract pkg); discriminate.
Qed.

(** The step returns or raises on every input and in every state. *)
Lemma async_step_contract_total ui : terminates (async_step_contract pkg ui).
Proof.
  unfold async_step_contract. cbn [async_step_contract_fuel].
  apply terminates_bind; [apply terminates_select_contract_id|].
  intros cid. destruct ui as [ui|].
  - apply terminates_bind; [apply terminates_record_decision|]. intros _.
    apply terminates_bind; [apply terminates_contracts_remain|].
    intros [|].
    + apply terminates_bind; [apply terminates_select_contract_id|].
      intros cid'.
      apply terminates_bind; [apply terminates_get_schema_contract|].
      intros sc. apply terminates_ret.
    + apply terminates_bind; [apply terminates_current_decisions|].
      intros d. destruct (py_all _);
        [apply terminates_async_abort | apply terminates_raise].
  - apply terminates_bind; [apply terminates_get_schema_contract|].
    intros sc. apply terminates_ret.
Qed.

(** No run of the step hands back a create-entry result. *)
Lemma async_step_contract_fuel_post fuel ui :
  post (async_step_contract_fuel pkg fuel ui)
    (fun r => forall title d, r <> CreateEntry title d).
Proof.
  revert ui. induction fuel as [|fuel IH]; intros ui.
  - intros w a E. discriminate E.
  - cbn [async_step_contract_fuel].
    apply post_bind; intros cid. destruct ui as [ui|].
    + apply post_bind; intros _.
      apply post_bind; intros [|]; [apply IH|].
      apply post_bind; intros d.
      destruct (py_all _); [apply post_raise | apply post_raise].
    + apply post_bind; intros sc. apply post_ret. congruence.
Qed.

End ContractStep.

(** ** The contract step: what one call does *)

Section ContractStepFacts.

Variable pkg : Package.

(** With a remembered contract id the head of the step only reads it. *)
Lemma select_contract_id_set (c : string) (w : World) :
  _last_contract_id (handler w) = Some c ->
  select_contract_id w = (Return c, w).
Proof.
  intros H. unfold select_contract_id. unfold_flow. simpl. now rewrite H.
Qed.

(** On the first visit the first key is taken out of the pending dict and
    remembered. *)
Lemma select_contract_id_first (k : string) (v : value) rest (w : World) :
  _last_contract_id (handler w) = None ->
  _contracts (handler w) = Some ((k, v) :: rest) ->
  select_contract_id w =
  (Return k,
   mkWorld (mkHandler (Some rest) (Some k) (_current_config (handler w)))
     (api_log w)).
Proof.
  intros H1 H2. unfold select_contract_id. unfold_flow. simpl.
  rewrite H1, H2. simpl. now rewrite String.eqb_refl.
Qed.

Lemma record_decision_spec (cid : string) (v : value) (w : World) :
  record_decision pkg cid v w =
  match _current_config (handler w) with
  | None => (Raise TypeError, w)
  | Some cfg =>
      match Dict.get (CONF_CONTRACTS pkg) cfg with
      | None => (Raise KeyError, w)
      | Some (VDict decisions) =>
          (Return tt, with_decision pkg cid v cfg decisions w)
      | Some _ => (Raise TypeError, w)
      end
  end.
Proof.
  unfold record_decision, current_decisions, with_decision. unfold_flow.
  simpl. destruct (_current_config (handler w)) as [cfg|] eqn:E1; auto.
  destruct (Dict.get (CONF_CONTRACTS pkg) cfg) as [[| | | |d]|] eqn:E2;
    simpl; auto.
  now rewrite E1.
Qed.

Lemma current_decisions_spec (w : World) :
  current_decisions pkg w =
  match _current_config (handler w) with
  | None => (Raise TypeError, w)
  | Some cfg =>
      match Dict.get (CONF_CONTRACTS pkg) cfg with
      | None => (Raise KeyError, w)
      | Some (VDict decisions) => (Return decisions, w)
      | Some _ => (Raise TypeError, w)
      end
  end.
Proof.
  unfold current_decisions. unfold_flow. simpl.
  destruct (_current_config (handler w)) as [cfg|] eqn:E1; auto.
  destruct (Dict.get (CONF_CONTRACTS pkg) cfg) as [[| | | |d]|] eqn:E2;
    simpl; auto.
Qed.

(** The step without input, once a contract id is remembered: the form
    for that id, or the failed lookup of [schema_contract]. *)
Lemma async_step_contract_no_input_set (n : nat) (c : string) (w : World) :
  _last_contract_id (handler w) = Some c ->
  async_step_contract_fuel pkg (S n) None w =
  match schema_contract pkg with
  | Some s =>
      (Return (ShowForm "contract" s None (Some [("code", VStr c)])), w)
  | None => (Raise AttributeError, w)
  end.
Proof.
  intros H. cbn [async_step_contract_fuel]. unfold bind at 1.
  rewrite (select_contract_id_set c w H).
  unfold get_schema_contract. unfold_flow.
  now destruct (schema_contract pkg).
Qed.

(** The step with input, once a contract id is remembered and the
    decisions dict is in place. *)
Lemma async_step_contract_input_set (c : string) (ui cfg decisions : dict)
  (w : World) :
  _last_contract_id (handler w) = Some c ->
  _current_config (handler w) = Some cfg ->
  Dict.get (CONF_CONTRACTS pkg) cfg = Some (VDict decisions) ->
  let v := contract_config_of pkg ui in
  let w' := with_decision pkg c v cfg decisions w in
  async_step_contract pkg (Some ui) w =
  if match _contracts (handler w) with
     | Some contracts => dict_truthy contracts
     | None => false
     end
  then
    match schema_contract pkg with
    | Some s =>
        (Return (ShowForm "contract" s None (Some [("code", VStr c)])), w')
    | None => (Raise AttributeError, w')
    end
  else
    if py_all (py_filter (fun x => negb (truthy x))
                 (Dict.values (Dict.set c v decisions)))
    then (Raise TypeError, w')
    else (Raise NameError, w').
Proof.
  intros Hid Hcfg Hdec v w'. unfold async_step_contract.
  cbn [async_step_contract_fuel]. unfold bind at 1.
  rewrite (select_contract_id_set c w Hid).
  unfold bind at 1. rewrite record_decision_spec, Hcfg, Hdec.
  fold v. fold w'.
  unfold bind at 1. unfold contracts_remain at 1. unfold_flow.
  cbn [handler with_decision _contracts] in *.
  change (handler w') with
    (mkHandler (_contracts (handler w)) (_last_contract_id (handler w))
       (Some (Dict.set (CONF_CONTRACTS pkg)
                (VDict (Dict.set c v decisions)) cfg))).
  cbn [_contracts].
  destruct (match _contracts (handler w) with
            | Some contracts => dict_truthy contracts
            | None => false
            end) eqn:Erem.
  - rewrite (select_contract_id_set c w') by exact Hid.
    now destruct (schema_contract pkg).
  - rewrite current_decisions_spec. unfold w' at 1, with_decision at 1.
    cbn [handler _current_config].
    rewrite DictFacts.get_set_same. now destruct (py_all _).
Qed.

(** The step with input, when the decision cannot be stored. *)
Lemma async_step_contract_input_raise (c : string) (ui : dict) (e : exn)
  (w w' : World) :
  _last_contract_id (handler w) = Some c ->
  record_decision pkg c (contract_config_of pkg ui) w = (Raise e, w') ->
  async_step_contract pkg (Some ui) w = (Raise e, w').
Proof.
  intros Hid Hrec. unfold async_step_contract.
  cbn [async_step_contract_fuel]. unfold bind at 1.
  rewrite (select_contract_id_set c w Hid).
  unfold bind at 1. now rewrite Hrec.
Qed.

End ContractStepFacts.

(** ** The remembered contract id *)

Lemma keeps_id_refl c w : keeps_id c w w.
Proof. intros H. exact H. Qed.

Lemma keeps_id_trans c w1 w2 w3 :
  keeps_id c w1 w2 -> keeps_id c w2 w3 -> keeps_id c w1 w3.
Proof. unfold keeps_id. auto. Qed.

Section KeepsId.

Variable pkg : Package.
Variable api : MosoblgazAPI.
Variable current_entries : list ConfigEntry.
Variable c : string.

Let keeps_bind {A B} := @preserves_bind A B (keeps_id c) (keeps_id_trans c).
Let keeps_ret {A} := @preserves_ret A (keeps_id c) (keeps_id_refl c).
Let keeps_raise {A} := @preserves_raise A (keeps_id c) (keeps_id_refl c).

Lemma keeps_async_abort positional reason :
  preserves (keeps_id c) (async_abort positional reason).
Proof. apply preserves_async_abort, keeps_id_refl. Qed.

Lemma keeps_set_contracts v : preserves (keeps_id c) (set_contracts v).
Proof. intros w H. exact H. Qed.

Lemma keeps_set_current_config v :
  preserves (keeps_id c) (set_current_config v).
Proof. intros w H. exact H. Qed.

Lemma keeps_log_call e : preserves (keeps_id c) (log_call e).
Proof. intros w H. exact H. Qed.

Lemma keeps_py_getitem d k : preserves (keeps_id c) (py_getitem d k).
Proof.
  unfold py_getitem. destruct (Dict.get k d); [apply keeps_ret | apply keeps_raise].
Qed.

Lemma keeps_py_str_add s v : preserves (keeps_id c) (py_str_add s v).
Proof.
  unfold py_str_add. destruct v; first [apply keeps_ret | apply keeps_raise].
Qed.

Lemma keeps_MosoblgazAPI_new u p :
  preserves (keeps_id c) (MosoblgazAPI_new api u p).
Proof.
  unfold MosoblgazAPI_new. apply keeps_bind; [apply keeps_log_call|].
  intros _. destruct (api_construct api u p);
    [apply keeps_raise | apply keeps_ret].
Qed.

Lemma keeps_authenticate client :
  preserves (keeps_id c) (authenticate api client).
Proof.
  unfold authenticate. apply keeps_bind; [apply keeps_log_call|].
  intros _. destruct (api_authenticate api _ _);
    [apply keeps_raise | apply keeps_ret].
Qed.

Lemma keeps_fetch_contracts client with_data :
  preserves (keeps_id c) (fetch_contracts api client with_data).
Proof.
  unfold fetch_contracts. apply keeps_bind; [apply keeps_log_call|].
  intros _. destruct (api_fetch_contracts api _ _ _);
    [apply keeps_raise | apply keeps_ret].
Qed.

(** One call of the contract step with a remembered id: the id and the
    pending dict are the same afterwards, and no client call is made. *)
Lemma async_step_contract_set ui (w : World) :
  _last_contract_id (handler w) = Some c ->
  let w' := snd (async_step_contract pkg ui w) in
  _last_contract_id (handler w') = Some c /\
  _contracts (handler w') = _contracts (handler w) /\
  api_log w' = api_log w.
Proof.
  intros Hid. destruct ui as [ui|].
  - destruct (_current_config (handler w)) as [cfg|] eqn:Hcfg.
    + destruct (Dict.get (CONF_CONTRACTS pkg) cfg) as [[| | | |d]|] eqn:Hd.
      5: { cbv zeta.
           rewrite (async_step_contract_input_set pkg c ui cfg d w Hid Hcfg Hd).
           repeat case_match; simpl; auto. }
      all: cbv zeta;
        erewrite (async_step_contract_input_raise pkg c ui _ w w Hid)
          by (rewrite record_decision_spec, Hcfg, Hd; reflexivity);
        simpl; auto.
    + cbv zeta.
      erewrite (async_step_contract_input_raise pkg c ui _ w w Hid)
        by (rewrite record_decision_spec, Hcfg; reflexivity).
      simpl; auto.
  - unfold async_step_contract.
    rewrite (async_step_contract_no_input_set pkg 1 c w Hid).
    destruct (schema_contract pkg); simpl; auto.
Qed.

Lemma keeps_async_step_contract ui :
  preserves (keeps_id c) (async_step_contract pkg ui).
Proof. intros w H. now apply async_step_contract_set. Qed.

Lemma keeps_async_step_user ui :
  preserves (keeps_id c) (async_step_user pkg api current_entries ui).
Proof.
  unfold async_step_user. destruct ui as [ui|]; [|apply keeps_ret].
  apply keeps_bind; [apply keeps_py_getitem|]. intros username.
  apply keeps_bind; [apply keeps_ret|].
  intros [|]; [apply keeps_async_abort|].
  apply keeps_bind.
  - apply preserves_try_except; [apply keeps_id_trans | |].
    + apply keeps_bind; [apply keeps_py_getitem|]. intros password.
      apply keeps_bind; [apply keeps_MosoblgazAPI_new|]. intros client.
      apply keeps_bind; [apply keeps_authenticate|]. intros _.
      apply keeps_bind; [apply keeps_fetch_contracts|]. intros contracts.
      destruct (negb _); [|apply keeps_ret].
      apply keeps_bind; [apply keeps_async_abort|]. intros aborted.
      apply keeps_ret.
    + intros e h He. destruct e; inversion He; subst;
        first [apply keeps_ret
              | apply keeps_bind; [apply keeps_raise|];
                intros aborted; apply keeps_ret].
  - intros [result|contracts]; [apply keeps_ret|].
    destruct (negb _).
    + apply keeps_bind; [apply keeps_set_current_config|]. intros _.
      apply keeps_bind; [apply keeps_set_contracts|]. intros _.
      apply keeps_async_step_contract.
    + apply keeps_bind; [apply keeps_py_str_add|]. intros title.
      apply keeps_ret.
Qed.

Lemma keeps_async_step_import ui :
  preserves (keeps_id c) (async_step_import current_entries ui).
Proof.
  unfold async_step_import. destruct ui as [ui|]; [|apply keeps_async_abort].
  apply keeps_bind; [apply keeps_py_getitem|]. intros username.
  apply keeps_bind; [apply keeps_ret|].
  intros [|]; [apply keeps_async_abort|].
  apply keeps_bind; [apply keeps_py_str_add|]. intros title.
  apply keeps_ret.
Qed.

End KeepsId.

(** ** The user step *)

Section UserStep.

Variable pkg : Package.
Variable api : MosoblgazAPI.
Variable current_entries : list ConfigEntry.

Lemma _check_entry_exists_unregistered username w :
  unregistered current_entries username ->
  _check_entry_exists current_entries username w = (Return false, w).
Proof.
  intros H. unfold _check_entry_exists, ret. f_equal. f_equal.
  induction current_entries as [|e es IH]; simpl; [reflexivity|].
  rewrite (H e) by now left. simpl. apply IH.
  intros e' He'. apply H. now right.
Qed.

Lemma _check_entry_exists_registered (u : string) w :
  (exists e, In e current_entries /\
             Dict.get CONF_USERNAME (data e) = Some (VStr u)) ->
  _check_entry_exists current_entries (VStr u) w = (Return true, w).
Proof.
  intros (e & Hin & Hu). unfold _check_entry_exists, ret. f_equal. f_equal.
  apply existsb_exists. exists e. split; [assumption|].
  unfold py_get. rewrite Hu. simpl. apply String.eqb_refl.
Qed.

(** The [try] block of [async_step_user] when the client is built and
    [authenticate] returns: the outcome is the one of [fetch_contracts]. *)
Lemma async_step_user_logged_in (ui : dict) (username password : value) w :
  Dict.get CONF_USERNAME ui = Some username ->
  unregistered current_entries username ->
  Dict.get CONF_PASSWORD ui = Some password ->
  api_construct api username password = None ->
  api_authenticate api username password = None ->
  let w1 := mkWorld (handler w) (api_log w ++ full_login username password) in
  async_step_user pkg api current_entries (Some ui) w =
  match api_fetch_contracts api username password false with
  | inl AuthenticationFailedException =>
      (Return (ShowForm "user" (schema_user pkg)
                 (Some [("base", VStr "invalid_credentials")]) None), w1)
  | inl PartialOfflineException => (Raise TypeError, w1)
  | inl MosoblgazException => (Raise TypeError, w1)
  | inl e => (Raise e, w1)
  | inr [] => (Raise TypeError, w1)
  | inr contracts =>
      if negb (truthy (py_get ui CONF_ADD_ALL_CONTRACTS))
      then
        async_step_contract pkg None
          (mkWorld
             (mkHandler (Some contracts) (_last_contract_id (handler w))
                (Some (Dict.set (CONF_CONTRACTS pkg) (VDict [])
                         (Dict.update [] ui))))
             (api_log w1))
      else
        match username with
        | VStr u => (Return (CreateEntry ("User: " ++ u) ui), w1)
        | _ => (Raise TypeError, w1)
        end
  end.
Proof.
  intros Hu Hfree Hp Hc Ha w1. unfold async_step_user.
  unfold bind at 1. unfold py_getitem at 1. rewrite Hu. unfold ret at 1.
  unfold bind at 1. rewrite (_check_entry_exists_unregistered _ _ Hfree).
  unfold bind at 1. unfold try_except.
  unfold bind at 1. unfold py_getitem at 1. rewrite Hp. unfold ret at 1.
  unfold MosoblgazAPI_new, authenticate, fetch_contracts, log_call.
  unfold bind at 1. unfold bind at 1. rewrite Hc. unfold ret at 1.
  unfold bind at 1. unfold bind at 1. cbn [fst snd]. rewrite Ha.
  unfold ret at 1. unfold bind at 1. unfold bind at 1.
  cbn [handler api_log].
  repeat rewrite <- app_assoc. cbn [app].
  fold (full_login username password). fold w1.
  destruct (api_fetch_contracts api username password false)
    as [e|[|kv contracts]]; [destruct e; reflexivity | reflexivity |].
  unfold raise, ret. cbn [dict_truthy negb].
  destruct (negb (truthy (py_get ui CONF_ADD_ALL_CONTRACTS))).
  - reflexivity.
  - unfold bind, py_str_add. destruct username; reflexivity.
Qed.

End UserStep.

(** ** Claims about the user and import steps *)

(** C4.  When some current entry's data hold exactly the submitted
    username, [async_step_user] and [async_step_import] both reach the call
    [self.async_abort("already_exists")]; the reason is passed positionally
    and the call raises [TypeError], so neither step hands back the abort.
    The world is left as it was: the handler state is untouched and the log
    of client calls has not grown, so the client was neither built nor
    called. *)
Theorem duplicate_username_abort_raises
  (pkg : Package) (api : MosoblgazAPI) (entries : list ConfigEntry)
  (u : string) (ui : dict) (w : World) :
  Dict.get CONF_USERNAME ui = Some (VStr u) ->
  (exists e, In e entries /\
             Dict.get CONF_USERNAME (data e) = Some (VStr u)) ->
  async_step_user pkg api entries (Some ui) w = (Raise TypeError, w) /\
  async_step_import entries (Some ui) w = (Raise TypeError, w).
Proof.
  intros Hu Hdup. split.
  - unfold async_step_user. unfold bind at 1. unfold py_getitem at 1.
    rewrite Hu. unfold ret at 1. unfold bind at 1.
    now rewrite (_check_entry_exists_registered entries u w Hdup).
  - unfold async_step_import. unfold bind at 1. unfold py_getitem at 1.
    rewrite Hu. unfold ret at 1. unfold bind at 1.
    now rewrite (_check_entry_exists_registered entries u w Hdup).
Qed.

Lemma duplicate_username_abort_raises_witness :
  async_step_user (sample_package None)
    (api_listing [("C1", VDict [])])
    [entry_of "bob"; entry_of "alice"] (Some (alice false)) world0 =
    (Raise TypeError, world0) /\
  async_step_import [entry_of "bob"; entry_of "alice"]
    (Some (alice false)) world0 =
    (Raise TypeError, world0).
Proof.
  apply (duplicate_username_abort_raises _ _ _ "alice").
  - reflexivity.
  - exists (entry_of "alice"). split; [right; left; reflexivity | reflexivity].
Defined.

(** C5.  A submission of the user step that passes the duplicate check, whose
    client is built and authenticates, and whose [fetch_contracts] returns
    the empty mapping, reaches the call [self.async_abort("contracts_missing")]
    inside the [try] block; the reason is passed positionally, the call
    raises [TypeError] and no [except] clause catches it, so the step does
    not hand back the abort.  The handler state is the one from before the
    call: [_contracts] and [_current_config] were not initialised and the
    contract step was not entered. *)
Theorem empty_contracts_abort_raises
  (pkg : Package) (api : MosoblgazAPI) (entries : list ConfigEntry)
  (ui : dict) (username password : value) (w : World) :
  Dict.get CONF_USERNAME ui = Some username ->
  unregistered entries username ->
  Dict.get CONF_PASSWORD ui = Some password ->
  api_construct api username password = None ->
  api_authenticate api username password = None ->
  api_fetch_contracts api username password false = inr [] ->
  async_step_user pkg api entries (Some ui) w =
    (Raise TypeError,
     mkWorld (handler w) (api_log w ++ full_login username password)).
Proof.
  intros Hu Hfree Hp Hc Ha Hf.
  rewrite (async_step_user_logged_in pkg api entries ui username password w
             Hu Hfree Hp Hc Ha).
  now rewrite Hf.
Qed.

Lemma empty_contracts_abort_raises_witness :
  async_step_user (sample_package None) (api_listing []) [entry_of "bob"]
    (Some (alice false)) world0 =
    (Raise TypeError,
     mkWorld Handler_init (full_login (VStr "alice") (VStr "x"))).
Proof.
  apply (empty_contracts_abort_raises (sample_package None) (api_listing [])
           [entry_of "bob"] (alice false) (VStr "alice") (VStr "x") world0);
    try reflexivity.
  intros e [<-|[]]. reflexivity.
Defined.

(** C6.  A submission of the user step whose [add_all_contracts] is truthy,
    that passes the duplicate check, authenticates and gets a non-empty
    contract mapping, creates the entry titled ["User: " + username] with the
    submitted mapping itself as data; the handler state is the one from
    before the call, so the contract step was not entered. *)
Theorem add_all_contracts_creates_entry
  (pkg : Package) (api : MosoblgazAPI) (entries : list ConfigEntry)
  (ui : dict) (u : string) (password : value) (contracts : dict) (w : World) :
  Dict.get CONF_USERNAME ui = Some (VStr u) ->
  unregistered entries (VStr u) ->
  Dict.get CONF_PASSWORD ui = Some password ->
  truthy (py_get ui CONF_ADD_ALL_CONTRACTS) = true ->
  api_construct api (VStr u) password = None ->
  api_authenticate api (VStr u) password = None ->
  api_fetch_contracts api (VStr u) password false = inr contracts ->
  contracts <> [] ->
  async_step_user pkg api entries (Some ui) w =
    (Return (CreateEntry ("User: " ++ u) ui),
     mkWorld (handler w) (api_log w ++ full_login (VStr u) password)).
Proof.
  intros Hu Hfree Hp Hall Hc Ha Hf Hne.
  rewrite (async_step_user_logged_in pkg api entries ui (VStr u) password w
             Hu Hfree Hp Hc Ha).
  rewrite Hf, Hall. destruct contracts; [contradiction | reflexivity].
Qed.

Lemma add_all_contracts_creates_entry_witness :
  async_step_user (sample_package None)
    (api_listing [("C1", VDict []); ("C2", VDict [])]) []
    (Some (alice true)) world0 =
    (Return (CreateEntry "User: alice" (alice true)),
     mkWorld Handler_init (full_login (VStr "alice") (VStr "x"))).
Proof.
  apply (add_all_contracts_creates_entry (sample_package None)
           (api_listing [("C1", VDict []); ("C2", VDict [])]) []
           (alice true) "alice" (VStr "x")
           [("C1", VDict []); ("C2", VDict [])] world0);
    try reflexivity.
  - intros e [].
  - discriminate.
Defined.

(** C10.  When the client is built and [authenticate] returns, an
    [AuthenticationFailedException] raised by [fetch_contracts] is caught by
    the handler that also guards [authenticate]: the user form is shown again
    with the error [invalid_credentials], and the flow does not abort. *)
Theorem fetch_contracts_auth_failure_reshows_form
  (pkg : Package) (api : MosoblgazAPI) (entries : list ConfigEntry)
  (ui : dict) (username password : value) (w : World) :
  Dict.get CONF_USERNAME ui = Some username ->
  unregistered entries username ->
  Dict.get CONF_PASSWORD ui = Some password ->
  api_construct api username password = None ->
  api_authenticate api username password = None ->
  api_fetch_contracts api username password false =
    inl AuthenticationFailedException ->
  async_step_user pkg api entries (Some ui) w =
    (Return (ShowForm "user" (schema_user pkg)
               (Some [("base", VStr "invalid_credentials")]) None),
     mkWorld (handler w) (api_log w ++ full_login username password)).
Proof.
  intros Hu Hfree Hp Hc Ha Hf.
  rewrite (async_step_user_logged_in pkg api entries ui username password w
             Hu Hfree Hp Hc Ha).
  now rewrite Hf.
Qed.

Lemma fetch_contracts_auth_failure_reshows_form_witness :
  async_step_user (sample_package None)
    (api_fetch_failing AuthenticationFailedException) []
    (Some (alice false)) world0 =
    (Return (ShowForm "user" (schema_user (sample_package None))
               (Some [("base", VStr "invalid_credentials")]) None),
     mkWorld Handler_init (full_login (VStr "alice") (VStr "x"))).
Proof.
  apply (fetch_contracts_auth_failure_reshows_form (sample_package None)
           (api_fetch_failing AuthenticationFailedException) []
           (alice false) (VStr "alice") (VStr "x") world0);
    try reflexivity.
  intros e [].
Defined.

(** ** Claims about the contract step *)

(** C9.  Once [_last_contract_id] holds a contract id [c], every step of the
    flow leaves it at [c]: the user step, the import step and the contract
    step, whatever their input and however they end.  A visit to the
    contract step in such a state takes nothing out of [_contracts], shows
    no form but the one for [c], and stores the submitted decision under
    [c]. *)
Theorem last_contract_id_is_kept
  (pkg : Package) (api : MosoblgazAPI) (entries : list ConfigEntry)
  (c : string) (w : World) :
  _last_contract_id (handler w) = Some c ->
  (forall ui,
     _last_contract_id
       (handler (snd (async_step_user pkg api entries ui w))) = Some c) /\
  (forall ui,
     _last_contract_id
       (handler (snd (async_step_import entries ui w))) = Some c) /\
  (forall ui,
     let r := async_step_contract pkg ui w in
     _last_contract_id (handler (snd r)) = Some c /\
     _contracts (handler (snd r)) = _contracts (handler w) /\
     (forall step_id data_schema errors placeholders,
        fst r = Return (ShowForm step_id data_schema errors placeholders) ->
        step_id = "contract" /\ placeholders = Some [("code", VStr c)]) /\
     (forall input decisions,
        ui = Some input ->
        decisions_of pkg (handler w) = Some decisions ->
        decisions_of pkg (handler (snd r)) =
        Some (Dict.set c (contract_config_of pkg input) decisions))).
Proof.
  intros Hid. split; [|split].
  - intros ui. now apply keeps_async_step_user.
  - intros ui. now apply keeps_async_step_import.
  - intros ui r.
    destruct (async_step_contract_set pkg c ui w Hid) as (H1 & H2 & _).
    fold r in H1, H2. split; [assumption|]. split; [assumption|]. split.
    + intros step_id data_schema errors placeholders H.
      destruct ui as [ui|]; subst r.
      * destruct (_current_config (handler w)) as [cfg|] eqn:Hcfg.
        -- destruct (Dict.get (CONF_CONTRACTS pkg) cfg) as [[| | | |d]|] eqn:Hd.
           5: { rewrite (async_step_contract_input_set pkg c ui cfg d w
                           Hid Hcfg Hd) in H.
                repeat case_match_in H; simpl in H;
                  inversion H; subst; split; reflexivity. }
           all: erewrite (async_step_contract_input_raise pkg c ui _ w w Hid)
             in H by (rewrite record_decision_spec, Hcfg, Hd; reflexivity);
             discriminate H.
        -- erewrite (async_step_contract_input_raise pkg c ui _ w w Hid)
             in H by (rewrite record_decision_spec, Hcfg; reflexivity).
           discriminate H.
      * unfold async_step_contract in H.
        rewrite (async_step_contract_no_input_set pkg 1 c w Hid) in H.
        destruct (schema_contract pkg); simpl in H;
          inversion H; subst; split; reflexivity.
    + intros input decisions -> Hdec. subst r. unfold decisions_of in Hdec.
      destruct (_current_config (handler w)) as [cfg|] eqn:Hcfg;
        [|discriminate].
      destruct (Dict.get (CONF_CONTRACTS pkg) cfg) as [[| | | |d]|] eqn:Hd;
        try discriminate.
      inversion Hdec; subst d.
      rewrite (async_step_contract_input_set pkg c input cfg decisions w
                 Hid Hcfg Hd).
      assert (Hw : decisions_of pkg
                     (handler (with_decision pkg c
                                 (contract_config_of pkg input)
                                 cfg decisions w)) =
                   Some (Dict.set c (contract_config_of pkg input) decisions)).
      { unfold decisions_of, with_decision. cbn [handler _current_config].
        now rewrite DictFacts.get_set_same. }
      repeat case_match; simpl; exact Hw.
Qed.

Lemma last_contract_id_is_kept_witness :
  let pkg := sample_package (Some contract_form) in
  let api := api_listing [("C1", VDict []); ("C2", VDict [])] in
  let w := world_two_contracts in
  _last_contract_id
    (handler (snd (async_step_user pkg api [] (Some (alice false)) w))) =
    Some "C1" /\
  _last_contract_id
    (handler (snd (async_step_import [] (Some (alice false)) w))) =
    Some "C1" /\
  _last_contract_id
    (handler (snd (async_step_contract pkg
                     (Some [(CONF_ENABLE_CONTRACT, VBool false)]) w))) =
    Some "C1" /\
  _contracts
    (handler (snd (async_step_contract pkg
                     (Some [(CONF_ENABLE_CONTRACT, VBool false)]) w))) =
    Some [("C2", VDict [])].
Proof.
  intros pkg api w.
  destruct (last_contract_id_is_kept pkg api [] "C1" w eq_refl)
    as (Huser & Himport & Hcontract).
  split; [apply Huser|]. split; [apply Himport|].
  destruct (Hcontract (Some [(CONF_ENABLE_CONTRACT, VBool false)]))
    as (Hid & Hpending & _).
  split; [exact Hid | exact Hpending].
Defined.

(** The test before [nothing_enabled]: [filter] keeps the falsy decisions,
    and [all] of those holds only when there is none of them, that is when
    every decision is truthy. *)
Lemma nothing_enabled_test (xs : list value) :
  py_all (py_filter (fun x => negb (truthy x)) xs) = forallb truthy xs.
Proof.
  unfold py_all, py_filter. induction xs as [|x xs IH]; simpl; [reflexivity|].
  destruct (truthy x) eqn:E; simpl; [exact IH | now rewrite E].
Qed.

(** With a contract id remembered, nothing left pending and the decisions
    dict in place, a submitted contract form ends the step in one of two
    ways: when every decision on record is truthy, in the [TypeError] of
    the positional call [self.async_abort('nothing_enabled')]; when some
    decision is falsy, in the [NameError] of the unbound [u]. *)
Lemma contract_step_exhausted (pkg : Package) (c : string)
  (ui cfg decisions : dict) (w : World) :
  _last_contract_id (handler w) = Some c ->
  _contracts (handler w) = Some [] ->
  _current_config (handler w) = Some cfg ->
  Dict.get (CONF_CONTRACTS pkg) cfg = Some (VDict decisions) ->
  fst (async_step_contract pkg (Some ui) w) =
  if forallb truthy
       (Dict.values (Dict.set c (contract_config_of pkg ui) decisions))
  then Raise TypeError
  else Raise NameError.
Proof.
  intros Hid Hpend Hcfg Hd.
  rewrite (async_step_contract_input_set pkg c ui cfg decisions w Hid Hcfg Hd).
  rewrite Hpend, nothing_enabled_test. cbn [dict_truthy].
  now destruct (forallb truthy _).
Qed.

(** C1.  One contract [C1] is listed and the wizard has made its first
    visit of the contract step.  Answering with the contract disabled (every
    decision is [False]) skips the branch of [nothing_enabled] and ends in
    [NameError]; answering with the contract enabled (a truthy decision)
    takes that branch, where the positional call
    [self.async_abort('nothing_enabled')] raises [TypeError], and no entry
    is created.  Neither depends on what [self.schema_contract] resolves
    to. *)
Theorem nothing_enabled_check_inverted (sc : option schema) :
  let pkg := sample_package sc in
  let api := api_listing [("C1", VDict [])] in
  let w := snd (async_step_user pkg api [] (Some (alice false)) world0) in
  handler w =
    mkHandler (Some []) (Some "C1")
      (Some (alice false ++ [("contracts", VDict [])])%list) /\
  fst (async_step_contract pkg (Some [(CONF_ENABLE_CONTRACT, VBool false)]) w)
    = Raise NameError /\
  fst (async_step_contract pkg
         (Some [(CONF_ENABLE_CONTRACT, VBool true);
                ("meters", VBool true); ("invoices", VBool true)]) w)
    = Raise TypeError.
Proof.
  destruct sc; vm_compute; repeat split.
Qed.

(** C3.  No call of the contract step, in any state and on any input, hands
    back a create-entry result: where the entry would be created the title
    is computed from the unbound name [u]. *)
Theorem contract_step_never_creates_entry
  (pkg : Package) (fuel : nat) (ui : option dict) (w : World)
  (title : string) (payload : dict) :
  fst (async_step_contract_fuel pkg fuel ui w) <>
  Return (CreateEntry title payload).
Proof.
  intros H.
  exact (async_step_contract_fuel_post pkg fuel ui w _ H title payload eq_refl).
Qed.

Example contract_step_mixed_decisions :
  fst (async_step_contract (sample_package None)
         (Some [(CONF_ENABLE_CONTRACT, VBool true);
                ("meters", VBool true); ("invoices", VBool true)])
         world_mixed_decisions) = Raise NameError.
Proof. reflexivity. Qed.

(** While something is pending, a submitted contract form is answered with
    the form of the same contract, and the flow is stuck as before. *)
Lemma stuck_on_step (pkg : Package) (s : schema) (c other : string)
  (pending : dict) (ui : dict) (w : World) :
  schema_contract pkg = Some s ->
  pending <> [] ->
  other <> c ->
  stuck_on pkg c other pending w ->
  fst (async_step_contract pkg (Some ui) w) =
    Return (ShowForm "contract" s None (Some [("code", VStr c)])) /\
  stuck_on pkg c other pending (snd (async_step_contract pkg (Some ui) w)).
Proof.
  intros Hs Hne Hoc (Hid & Hpend & d & Hdec & Hother).
  unfold decisions_of in Hdec.
  destruct (_current_config (handler w)) as [cfg|] eqn:Hcfg; [|discriminate].
  destruct (Dict.get (CONF_CONTRACTS pkg) cfg) as [[| | | |d']|] eqn:Hd;
    try discriminate.
  inversion Hdec; subst d'.
  rewrite (async_step_contract_input_set pkg c ui cfg d w Hid Hcfg Hd).
  rewrite Hpend, Hs. destruct pending; [contradiction|]. cbn [dict_truthy].
  split; [reflexivity|]. cbn [snd].
  unfold stuck_on, with_decision, decisions_of.
  cbn [handler _last_contract_id _contracts _current_config].
  repeat split; try assumption.
  rewrite DictFacts.get_set_same.
  eexists; split; [reflexivity|].
  now rewrite DictFacts.get_set_other.
Qed.

Lemma stuck_on_forever (pkg : Package) (s : schema) (c other : string)
  (pending : dict) (inputs : list dict) (w : World) :
  schema_contract pkg = Some s ->
  pending <> [] ->
  other <> c ->
  stuck_on pkg c other pending w ->
  Forall (fun r => r = Return (ShowForm "contract" s None
                                 (Some [("code", VStr c)])))
    (fst (submit_contract_forms pkg inputs w)) /\
  stuck_on pkg c other pending (snd (submit_contract_forms pkg inputs w)).
Proof.
  intros Hs Hne Hoc. revert w.
  induction inputs as [|ui inputs IH]; intros w Hstuck; simpl.
  - split; [constructor | assumption].
  - destruct (stuck_on_step pkg s c other pending ui w Hs Hne Hoc Hstuck)
      as (Hr & Hstuck').
    destruct (async_step_contract pkg (Some ui) w) as [r w'].
    simpl in Hr, Hstuck'. destruct (IH w' Hstuck') as (Hrs & Hend).
    destruct (submit_contract_forms pkg inputs w') as [rs w''].
    simpl in *. split; [constructor; assumption | assumption].
Qed.

(** C2.  Two contracts [C1] and [C2] are listed and [add_all_contracts] is
    unset.  When [self.schema_contract] resolves to a schema, the user step
    shows the contract form for [C1], and every submitted contract form,
    however many and whatever their content, is answered with the contract
    form for [C1] again: no terminal result is produced, [C2] stays pending
    and no decision for [C2] is ever on record.  When the lookup of
    [self.schema_contract] fails, the first visit raises [AttributeError]
    and no contract form is shown at all. *)
Theorem contract_step_repeats_first_contract (inputs : list dict) :
  let api := api_listing [("C1", VDict []); ("C2", VDict [])] in
  let pkg := sample_package (Some contract_form) in
  let start := async_step_user pkg api [] (Some (alice false)) world0 in
  let form_C1 :=
    Return (ShowForm "contract" contract_form None
              (Some [("code", VStr "C1")])) in
  let finish := submit_contract_forms pkg inputs (snd start) in
  fst start = form_C1 /\
  Forall (fun r => r = form_C1) (fst finish) /\
  stuck_on pkg "C1" "C2" [("C2", VDict [])] (snd finish) /\
  fst (async_step_user (sample_package None) api [] (Some (alice false))
         world0) = Raise AttributeError.
Proof.
  intros api pkg start form_C1 finish.
  assert (Hstart : stuck_on pkg "C1" "C2" [("C2", VDict [])] (snd start)).
  { vm_compute. repeat split. eexists; split; reflexivity. }
  destruct (stuck_on_forever pkg contract_form "C1" "C2" [("C2", VDict [])]
              inputs (snd start) eq_refl) as (Hrs & Hend);
    [discriminate | discriminate | exact Hstart |].
  split; [reflexivity|]. split; [exact Hrs|]. split; [exact Hend|].
  reflexivity.
Qed.

(** ** Claims about the options wizard *)

(** C7, as the specification words it, fails on a submitted placeholder
    form: the import step does not answer it with a created entry. *)
Lemma options_import_submission_counterexample :
  ~ exists title payload,
      OptionsFlow.async_step_import (Some [("not_in_use", VBool false)]) =
      CreateEntry title payload.
Proof. intros (title & payload & H). discriminate H. Qed.

(** C7, amended.  The options wizard's import step answers every call, with
    or without input, with the form of the single placeholder boolean
    [not_in_use]; so does the init step for an entry that came from the
    import path.  Neither creates an entry. *)
Theorem options_import_reshows_form
  (pkg : Package) (data options : dict) (version : Z) (ui : option dict) :
  let entry := mkConfigEntry data options version SOURCE_IMPORT in
  let placeholder_form :=
    ShowForm "import" [Optional "not_in_use" (VBool false) cv_boolean]
      None None in
  OptionsFlow.async_step_import ui = placeholder_form /\
  OptionsFlow.async_step_init pkg entry ui = placeholder_form /\
  forall title payload,
    OptionsFlow.async_step_init pkg entry ui <> CreateEntry title payload.
Proof.
  intros entry placeholder_form. repeat split.
  intros title payload. discriminate.
Qed.

Lemma resolved_options_v1 (entry : ConfigEntry) (key : string) (fixed : value) :
  version entry = 1%Z ->
  Dict.wf (data entry) ->
  Dict.wf (options entry) ->
  resolves_to entry key fixed
    (py_get_default (OptionsFlow.resolved_options entry) key fixed).
Proof.
  intros Hv Hd Ho. unfold OptionsFlow.resolved_options, py_get_default.
  rewrite Hv. cbn [Z.eqb Pos.eqb].
  assert (Hopt : (if dict_truthy (options entry) then options entry else [])
                 = options entry) by now destruct (options entry).
  rewrite Hopt, DictFacts.get_update by assumption.
  rewrite DictFacts.get_update_nil by assumption.
  repeat split.
  - intros v E. now rewrite E.
  - intros v E1 E2. now rewrite E1, E2.
  - intros E1 E2. now rewrite E1, E2.
Qed.

(** C8.  On an entry of version 1 the options wizard's user step shows the
    form with the three defaults, and each default is the option's value
    when the options hold the field, else the entry data's value when the
    data hold it, else the fixed default. *)
Theorem options_defaults_v1 (pkg : Package) (entry : ConfigEntry) :
  version entry = 1%Z ->
  Dict.wf (data entry) ->
  Dict.wf (options entry) ->
  OptionsFlow.async_step_user pkg entry None =
    ShowForm "user"
      [Optional (CONF_INVERT_INVOICES pkg)
         (OptionsFlow.default_invert_invoices pkg entry) cv_boolean;
       Optional CONF_TIMEOUT
         (OptionsFlow.default_timeout pkg entry) cv_positive_int;
       Optional CONF_SCAN_INTERVAL
         (OptionsFlow.default_scan_interval pkg entry) cv_positive_int]
      None None /\
  resolves_to entry (CONF_INVERT_INVOICES pkg) (DEFAULT_INVERT_INVOICES pkg)
    (OptionsFlow.default_invert_invoices pkg entry) /\
  resolves_to entry CONF_TIMEOUT (DEFAULT_TIMEOUT_total_seconds pkg)
    (OptionsFlow.default_timeout pkg entry) /\
  resolves_to entry CONF_SCAN_INTERVAL (DEFAULT_SCAN_INTERVAL_total_seconds pkg)
    (OptionsFlow.default_scan_interval pkg entry).
Proof.
  intros Hv Hd Ho. split; [reflexivity|].
  repeat split; now apply resolved_options_v1.
Qed.

Lemma options_defaults_v1_witness :
  OptionsFlow.async_step_user (sample_package None) legacy_entry None =
    ShowForm "user"
      [Optional "invert_invoices" (VBool true) cv_boolean;
       Optional CONF_TIMEOUT (VInt 45) cv_positive_int;
       Optional CONF_SCAN_INTERVAL (VInt 600) cv_positive_int]
      None None.
Proof.
  assert (Hwf_data : Dict.wf (data legacy_entry)).
  { repeat constructor; simpl; intuition discriminate. }
  assert (Hwf_options : Dict.wf (options legacy_entry)).
  { repeat constructor; simpl; intuition discriminate. }
  destruct (options_defaults_v1 (sample_package None) legacy_entry
              eq_refl Hwf_data Hwf_options) as (Hform & _).
  exact Hform.
Defined.


(** * Further properties of the flows *)

(** ** The duplicate check *)

Lemma py_eq_VStr_r (v : value) (u : string) :
  py_eq v (VStr u) = true <-> v = VStr u.
Proof.
  destruct v; simpl; split; intros H; try discriminate.
  - apply String.eqb_eq in H. now subst.
  - inversion H. apply String.eqb_refl.
Qed.

(** X1.  For a string username the duplicate check answers [True] exactly
    when some current entry's data hold that very string under [username];
    entries without a username, with another value or with another spelling
    do not count.  The check changes nothing. *)
Theorem check_entry_exists_iff
  (entries : list ConfigEntry) (u : string) (w : World) :
  exists found,
    _check_entry_exists entries (VStr u) w = (Return found, w) /\
    (found = true <-> registered entries u).
Proof.
  eexists. split; [reflexivity|]. rewrite existsb_exists. unfold registered.
  split; intros (e & Hin & He); exists e; (split; [assumption|]).
  - apply py_eq_VStr_r in He. unfold py_get in He.
    destruct (Dict.get CONF_USERNAME (data e)); [now subst | discriminate].
  - unfold py_get. rewrite He. apply String.eqb_refl.
Qed.

Lemma unregistered_iff (entries : list ConfigEntry) (username : value) :
  unregistered entries username <->
  existsb (fun config_entry =>
             py_eq (py_get (data config_entry) CONF_USERNAME) username)
    entries = false.
Proof.
  unfold unregistered. induction entries as [|e es IH]; simpl.
  - split; [reflexivity | intros _ e []].
  - rewrite orb_false_iff, <- IH. split.
    + intros H. split; [apply H; now left | intros e' He'; apply H; now right].
    + intros [H1 H2] e' [<-|He']; auto.
Qed.

(** ** The user step, branch by branch *)

Section UserStepShape.

Variable pkg : Package.
Variable api : MosoblgazAPI.
Variable current_entries : list ConfigEntry.

(** The whole of [async_step_user] on a submitted input, as one case
    analysis on what the input holds and on how the client answers. *)
Lemma async_step_user_cases (ui : dict) (w : World) :
  async_step_user pkg api current_entries (Some ui) w =
  match Dict.get CONF_USERNAME ui with
  | None => (Raise KeyError, w)
  | Some username =>
      if existsb (fun config_entry =>
                    py_eq (py_get (data config_entry) CONF_USERNAME) username)
           current_entries
      then (Raise TypeError, w)
      else
        match Dict.get CONF_PASSWORD ui with
        | None => (Raise KeyError, w)
        | Some password =>
            match api_construct api username password with
            | Some e =>
                (on_client_error pkg e,
                 logged [ApiConstruct username password] w)
            | None =>
                match api_authenticate api username password with
                | Some e =>
                    (on_client_error pkg e,
                     logged [ApiConstruct username password; ApiAuthenticate] w)
                | None =>
                    let w3 := logged (full_login username password) w in
                    match api_fetch_contracts api username password false with
                    | inl e => (on_client_error pkg e, w3)
                    | inr [] => (Raise TypeError, w3)
                    | inr contracts =>
                        if negb (truthy (py_get ui CONF_ADD_ALL_CONTRACTS))
                        then async_step_contract pkg None
                               (pending_state pkg ui contracts w3)
                        else
                          match username with
                          | VStr u =>
                              (Return (CreateEntry ("User: " ++ u) ui), w3)
                          | _ => (Raise TypeError, w3)
                          end
                    end
                end
            end
        end
  end.
Proof.
  unfold async_step_user. unfold bind at 1. unfold py_getitem at 1.
  destruct (Dict.get CONF_USERNAME ui) as [username|]; [|reflexivity].
  unfold ret at 1. unfold bind at 1. unfold _check_entry_exists, ret at 1.
  destruct (existsb _ current_entries) eqn:Hfound; [reflexivity|].
  unfold bind at 1. unfold try_except.
  unfold bind at 1. unfold py_getitem at 1.
  destruct (Dict.get CONF_PASSWORD ui) as [password|]; [|reflexivity].
  unfold ret at 1.
  unfold MosoblgazAPI_new, authenticate, fetch_contracts, log_call.
  unfold bind at 1. unfold bind at 1.
  destruct (api_construct api username password) as [e|].
  { unfold raise at 1. cbn [handler api_log]. destruct e; reflexivity. }
  unfold ret at 1. unfold bind at 1. unfold bind at 1. cbn [fst snd].
  destruct (api_authenticate api username password) as [e|].
  { unfold raise at 1. cbn [handler api_log]. rewrite <- app_assoc.
    destruct e; reflexivity. }
  unfold ret at 1. unfold bind at 1. unfold bind at 1. cbn [handler api_log].
  repeat rewrite <- app_assoc. cbn [app].
  fold (full_login username password).
  fold (logged (full_login username password) w).
  destruct (api_fetch_contracts api username password false)
    as [e|[|kv contracts]]; [destruct e; reflexivity | reflexivity |].
  unfold raise, ret. cbn [dict_truthy negb].
  destruct (negb (truthy (py_get ui CONF_ADD_ALL_CONTRACTS))).
  - reflexivity.
  - unfold bind, py_str_add. destruct username; reflexivity.
Qed.

End UserStepShape.

(** ** Steps that leave the client alone *)

Lemma same_log_refl w : same_log w w.
Proof. reflexivity. Qed.

Lemma same_log_trans w1 w2 w3 :
  same_log w1 w2 -> same_log w2 w3 -> same_log w1 w3.
Proof. unfold same_log. congruence. Qed.

Section SameLog.

Variable pkg : Package.

Let log_bind {A B} := @preserves_bind A B same_log same_log_trans.
Let log_ret {A} := @preserves_ret A same_log same_log_refl.
Let log_raise {A} := @preserves_raise A same_log same_log_refl.

Lemma same_log_select_contract_id : preserves same_log select_contract_id.
Proof.
  intros w. unfold select_contract_id. unfold_flow. unfold same_log. simpl.
  repeat case_match; reflexivity.
Qed.

Lemma same_log_current_decisions : preserves same_log (current_decisions pkg).
Proof.
  intros w. rewrite current_decisions_spec. unfold same_log.
  repeat case_match; reflexivity.
Qed.

Lemma same_log_record_decision cid v :
  preserves same_log (record_decision pkg cid v).
Proof.
  intros w. rewrite record_decision_spec. unfold same_log.
  repeat case_match; reflexivity.
Qed.

Lemma same_log_get_schema_contract :
  preserves same_log (get_schema_contract pkg).
Proof.
  unfold get_schema_contract.
  destruct (schema_contract pkg); [apply log_ret | apply log_raise].
Qed.

Lemma same_log_async_step_contract_fuel fuel ui :
  preserves same_log (async_step_contract_fuel pkg fuel ui).
Proof.
  revert ui. induction fuel as [|fuel IH]; intros ui.
  - intros w. reflexivity.
  - cbn [async_step_contract_fuel].
    apply log_bind; [apply same_log_select_contract_id|]. intros cid.
    destruct ui as [ui|].
    + apply log_bind; [apply same_log_record_decision|]. intros _.
      apply log_bind; [intros w; reflexivity|]. intros [|]; [apply IH|].
      apply log_bind; [apply same_log_current_decisions|]. intros d.
      destruct (py_all _); [apply log_raise | apply log_raise].
    + apply log_bind; [apply same_log_get_schema_contract|]. intros sc.
      apply log_ret.
Qed.

End SameLog.

(** The import step, as one case analysis on its input. *)
Lemma async_step_import_cases
  (entries : list ConfigEntry) (ui : option dict) (w : World) :
  async_step_import entries ui w =
  (match ui with
   | None => Raise TypeError
   | Some ui =>
       match Dict.get CONF_USERNAME ui with
       | None => Raise KeyError
       | Some username =>
           if existsb (fun config_entry =>
                         py_eq (py_get (data config_entry) CONF_USERNAME)
                           username) entries
           then Raise TypeError
           else
             match username with
             | VStr u =>
                 Return (CreateEntry ("User: " ++ u)
                           [(CONF_USERNAME, username)])
             | _ => Raise TypeError
             end
       end
   end, w).
Proof.
  unfold async_step_import. destruct ui as [ui|]; [|reflexivity].
  unfold_flow. unfold _check_entry_exists, ret.
  destruct (Dict.get CONF_USERNAME ui) as [username|]; [|reflexivity].
  destruct (existsb _ entries); [reflexivity|].
  destruct username; reflexivity.
Qed.

(** X2.  Neither the import step nor the contract step ever calls the
    client: whatever the input, the state and the outcome, the log of
    client calls is the same afterwards; the import step changes nothing at
    all, the handler state included. *)
Theorem import_and_contract_steps_leave_client_alone
  (pkg : Package) (entries : list ConfigEntry) (fuel : nat)
  (ui : option dict) (w : World) :
  snd (async_step_import entries ui w) = w /\
  api_log (snd (async_step_contract_fuel pkg fuel ui w)) = api_log w.
Proof.
  split.
  - now rewrite async_step_import_cases.
  - apply (same_log_async_step_contract_fuel pkg fuel ui w).
Qed.

(** X3.  The user step calls the client in one order only: the log grows by
    a prefix of constructor, [authenticate], [fetch_contracts(with_data=
    False)], built from the submitted username and password.  So nothing is
    fetched before a login, contract data are never asked for, and no call
    is repeated. *)
Theorem user_step_client_calls
  (pkg : Package) (api : MosoblgazAPI) (entries : list ConfigEntry)
  (ui : option dict) (w : World) :
  exists n,
    api_log (snd (async_step_user pkg api entries ui w)) =
    (api_log w ++
     firstn n
       (match ui with
        | Some ui => full_login (py_get ui CONF_USERNAME)
                       (py_get ui CONF_PASSWORD)
        | None => []
        end))%list.
Proof.
  destruct ui as [ui|].
  2: { exists 0. simpl. now rewrite app_nil_r. }
  rewrite async_step_user_cases. unfold py_get.
  destruct (Dict.get CONF_USERNAME ui) as [username|].
  2: { exists 0. simpl. now rewrite app_nil_r. }
  destruct (existsb _ entries).
  { exists 0. simpl. now rewrite app_nil_r. }
  destruct (Dict.get CONF_PASSWORD ui) as [password|].
  2: { exists 0. simpl. now rewrite app_nil_r. }
  destruct (api_construct api username password).
  { exists 1. reflexivity. }
  destruct (api_authenticate api username password).
  { exists 2. reflexivity. }
  exists 3. cbv zeta.
  destruct (api_fetch_contracts api username password false)
    as [e|[|kv contracts]]; try reflexivity.
  destruct (negb (truthy _)).
  - unfold async_step_contract.
    rewrite (same_log_async_step_contract_fuel pkg 2 None). reflexivity.
  - destruct username; reflexivity.
Qed.

(** X4.  A submission without [username] raises [KeyError] and one without
    [password], once the duplicate check is passed, raises [KeyError] too:
    the [except] clauses do not catch it, the client is not built and
    nothing changes. *)
Theorem user_step_missing_credentials
  (pkg : Package) (api : MosoblgazAPI) (entries : list ConfigEntry)
  (ui : dict) (w : World) :
  (Dict.get CONF_USERNAME ui = None ->
   async_step_user pkg api entries (Some ui) w = (Raise KeyError, w) /\
   async_step_import entries (Some ui) w = (Raise KeyError, w)) /\
  (forall username,
     Dict.get CONF_USERNAME ui = Some username ->
     unregistered entries username ->
     Dict.get CONF_PASSWORD ui = None ->
     async_step_user pkg api entries (Some ui) w = (Raise KeyError, w)).
Proof.
  split.
  - intros Hu. rewrite async_step_user_cases, async_step_import_cases, Hu.
    split; reflexivity.
  - intros username Hu Hfree Hp. apply unregistered_iff in Hfree.
    now rewrite async_step_user_cases, Hu, Hfree, Hp.
Qed.

Lemma user_step_missing_credentials_witness :
  async_step_user (sample_package None) (api_listing []) []
    (Some [(CONF_PASSWORD, VStr "x")]) world0 = (Raise KeyError, world0) /\
  async_step_user (sample_package None) (api_listing []) []
    (Some [(CONF_USERNAME, VStr "alice")]) world0 = (Raise KeyError, world0).
Proof.
  split.
  - apply (user_step_missing_credentials (sample_package None)
             (api_listing []) [] [(CONF_PASSWORD, VStr "x")] world0).
    reflexivity.
  - apply (user_step_missing_credentials (sample_package None)
             (api_listing []) [] [(CONF_USERNAME, VStr "alice")] world0)
      with (username := VStr "alice"); try reflexivity.
    intros e [].
Defined.

(** X5.  Whichever of the three client calls raises, the constructor,
    [authenticate] or [fetch_contracts], the user step answers by the same
    table: the user form with [invalid_credentials] for an authentication
    failure; [TypeError] for the two other exceptions of the integration,
    whose [except] clauses call [async_abort] with a positional reason; and
    any other exception passes through.  The handler state is the one from
    before the call and the log holds the calls made up to the failing
    one. *)
Theorem user_step_client_failure
  (pkg : Package) (api : MosoblgazAPI) (entries : list ConfigEntry)
  (ui : dict) (username password : value) (e : exn) (w : World) :
  Dict.get CONF_USERNAME ui = Some username ->
  unregistered entries username ->
  Dict.get CONF_PASSWORD ui = Some password ->
  (api_construct api username password = Some e ->
   async_step_user pkg api entries (Some ui) w =
   (on_client_error pkg e, logged [ApiConstruct username password] w)) /\
  (api_construct api username password = None ->
   api_authenticate api username password = Some e ->
   async_step_user pkg api entries (Some ui) w =
   (on_client_error pkg e,
    logged [ApiConstruct username password; ApiAuthenticate] w)) /\
  (api_construct api username password = None ->
   api_authenticate api username password = None ->
   api_fetch_contracts api username password false = inl e ->
   async_step_user pkg api entries (Some ui) w =
   (on_client_error pkg e, logged (full_login username password) w)).
Proof.
  intros Hu Hfree Hp. apply unregistered_iff in Hfree.
  rewrite async_step_user_cases, Hu, Hfree, Hp. repeat split.
  - intros ->. reflexivity.
  - intros -> ->. reflexivity.
  - intros -> -> ->. reflexivity.
Qed.

Lemma user_step_client_failure_witness :
  async_step_user (sample_package None)
    (api_auth_failing PartialOfflineException) []
    (Some (alice false)) world0 =
  (Raise TypeError,
   logged [ApiConstruct (VStr "alice") (VStr "x"); ApiAuthenticate] world0) /\
  async_step_user (sample_package None)
    (api_construct_failing AuthenticationFailedException) []
    (Some (alice false)) world0 =
  (Return (ShowForm "user" (schema_user (sample_package None))
             (Some [("base", VStr "invalid_credentials")]) None),
   logged [ApiConstruct (VStr "alice") (VStr "x")] world0) /\
  async_step_user (sample_package None)
    (api_fetch_failing IndexError) []
    (Some (alice false)) world0 =
  (Raise IndexError, logged (full_login (VStr "alice") (VStr "x")) world0).
Proof.
  split; [|split].
  - apply (user_step_client_failure (sample_package None)
             (api_auth_failing PartialOfflineException) [] (alice false)
             (VStr "alice") (VStr "x") PartialOfflineException world0);
      try reflexivity.
    intros e [].
  - apply (user_step_client_failure (sample_package None)
             (api_construct_failing AuthenticationFailedException) []
             (alice false) (VStr "alice") (VStr "x")
             AuthenticationFailedException world0);
      try reflexivity.
    intros e [].
  - apply (user_step_client_failure (sample_package None)
             (api_fetch_failing IndexError) [] (alice false)
             (VStr "alice") (VStr "x") IndexError world0);
      try reflexivity.
    intros e [].
Defined.

(** ** What the steps can answer *)

Lemma post_bind_strong {A B} (m : M A) (k : A -> M B)
  (P : A -> Prop) (Q : B -> Prop) :
  post m P -> (forall a, P a -> post (k a) Q) -> post (bind m k) Q.
Proof.
  intros Hm Hk w b. unfold bind. specialize (Hm w).
  destruct (m w) as [[a| |] w'] eqn:E; simpl in *; try discriminate.
  apply Hk. now apply Hm.
Qed.

Lemma post_get_schema_contract (pkg : Package) :
  post (get_schema_contract pkg) (fun s => schema_contract pkg = Some s).
Proof.
  intros w s. unfold get_schema_contract.
  destruct (schema_contract pkg); simpl; intros H; now inversion H.
Qed.

(** Without input the contract step answers with the contract form only. *)
Lemma async_step_contract_no_input_post (pkg : Package) (n : nat) :
  post (async_step_contract_fuel pkg (S n) None) (is_contract_form pkg).
Proof.
  cbn [async_step_contract_fuel]. apply post_bind. intros cid.
  apply (post_bind_strong _ _ _ _ (post_get_schema_contract pkg)).
  intros s Hs. apply post_ret. now exists s, cid.
Qed.

Lemma async_step_contract_post (pkg : Package) (fuel : nat) ui :
  post (async_step_contract_fuel pkg fuel ui) (is_contract_form pkg).
Proof.
  destruct fuel as [|fuel]; [intros w a E; discriminate E|].
  destruct ui as [ui|].
  - cbn [async_step_contract_fuel].
    apply post_bind; intros cid. apply post_bind; intros _.
    apply post_bind; intros [|].
    + destruct fuel as [|fuel]; [intros w a E; discriminate E|].
      apply async_step_contract_no_input_post.
    + apply post_bind; intros d.
      destruct (py_all _); [apply post_raise | apply post_raise].
  - apply async_step_contract_no_input_post.
Qed.

Lemma registered_iff (entries : list ConfigEntry) (u : string) :
  existsb (fun config_entry =>
             py_eq (py_get (data config_entry) CONF_USERNAME) (VStr u))
    entries = true <-> registered entries u.
Proof.
  rewrite existsb_exists. unfold registered.
  split; intros (e & Hin & He); exists e; (split; [assumption|]).
  - apply py_eq_VStr_r in He. unfold py_get in He.
    destruct (Dict.get CONF_USERNAME (data e)); [now subst | discriminate].
  - unfold py_get. rewrite He. apply String.eqb_refl.
Qed.

(** X6.  No step of the setup wizard hands back an abort: wherever the
    source calls [async_abort] it passes the reason positionally, and the
    call raises [TypeError].  What the steps do hand back lies in fixed
    sets: the user step the user form (with no error or with
    [invalid_credentials]), the contract form or a created entry; the
    contract step the contract form only; the import step a created entry
    only. *)
Theorem setup_wizard_results
  (pkg : Package) (api : MosoblgazAPI) (entries : list ConfigEntry)
  (ui : option dict) (w : World) (r : FlowResult) :
  (fst (async_step_user pkg api entries ui w) = Return r ->
   user_step_result pkg r) /\
  (fst (async_step_contract pkg ui w) = Return r ->
   is_contract_form pkg r) /\
  (fst (async_step_import entries ui w) = Return r ->
   exists title payload, r = CreateEntry title payload).
Proof.
  split; [|split].
  - destruct ui as [ui|].
    2: { simpl. intros H. inversion H. left. auto. }
    rewrite async_step_user_cases.
    destruct (Dict.get CONF_USERNAME ui) as [username|]; [|discriminate].
    destruct (existsb _ entries); [discriminate|].
    destruct (Dict.get CONF_PASSWORD ui) as [password|]; [|discriminate].
    assert (Herr : forall e, on_client_error pkg e = Return r ->
                             user_step_result pkg r).
    { intros e. destruct e; simpl; intros H; inversion H; simpl; auto 10. }
    destruct (api_construct api username password); [apply Herr|].
    destruct (api_authenticate api username password); [apply Herr|].
    cbv zeta.
    destruct (api_fetch_contracts api username password false)
      as [e|[|kv contracts]]; [apply Herr | discriminate |].
    destruct (negb (truthy _)).
    + intros H. apply async_step_contract_no_input_post in H.
      destruct H as (s & c & Hs & ->). right. now exists s, c.
    + destruct username; simpl; intros H; inversion H; exact I.
  - apply async_step_contract_post.
  - rewrite async_step_import_cases. cbn [fst].
    destruct ui as [ui|]; [|discriminate].
    destruct (Dict.get CONF_USERNAME ui) as [username|]; [|discriminate].
    destruct (existsb _ entries); [discriminate|].
    destruct username; intros H; inversion H; eauto.
Qed.

Lemma setup_wizard_results_witness :
  (exists r,
     fst (async_step_user (sample_package None) (api_listing []) []
            None world0) = Return r /\
     user_step_result (sample_package None) r) /\
  (exists r,
     fst (async_step_contract (sample_package (Some contract_form))
            None world_two_contracts) = Return r /\
     is_contract_form (sample_package (Some contract_form)) r) /\
  (exists r,
     fst (async_step_import [entry_of "bob"] (Some (alice false)) world0) =
       Return r /\
     exists title payload, r = CreateEntry title payload).
Proof.
  split; [|split]; eexists; (split; [reflexivity|]).
  - apply (setup_wizard_results (sample_package None) (api_listing []) []
             None world0). reflexivity.
  - apply (setup_wizard_results (sample_package (Some contract_form))
             (api_listing []) [] None world_two_contracts). reflexivity.
  - apply (setup_wizard_results (sample_package None) (api_listing [])
             [entry_of "bob"] (Some (alice false)) world0). reflexivity.
Defined.

(** X7.  An entry comes out of the user step only for a submission whose
    [add_all_contracts] is truthy and whose username is a string that no
    current entry carries, and out of the import step only for such a
    username; the title is ["User: "] plus that username, the data are the
    submitted mapping for the user step and the username alone for the
    import step. *)
Theorem entry_creation_conditions
  (pkg : Package) (api : MosoblgazAPI) (entries : list ConfigEntry)
  (ui : option dict) (w : World) (title : string) (payload : dict) :
  (fst (async_step_user pkg api entries ui w) =
     Return (CreateEntry title payload) ->
   exists input u,
     ui = Some input /\
     Dict.get CONF_USERNAME input = Some (VStr u) /\
     ~ registered entries u /\
     truthy (py_get input CONF_ADD_ALL_CONTRACTS) = true /\
     title = "User: " ++ u /\ payload = input) /\
  (fst (async_step_import entries ui w) =
     Return (CreateEntry title payload) ->
   exists input u,
     ui = Some input /\
     Dict.get CONF_USERNAME input = Some (VStr u) /\
     ~ registered entries u /\
     title = "User: " ++ u /\ payload = [(CONF_USERNAME, VStr u)]).
Proof.
  split.
  - destruct ui as [ui|]; [|discriminate].
    rewrite async_step_user_cases.
    destruct (Dict.get CONF_USERNAME ui) as [username|] eqn:Hu; [|discriminate].
    destruct (existsb _ entries) eqn:Hfound; [discriminate|].
    destruct (Dict.get CONF_PASSWORD ui) as [password|]; [|discriminate].
    assert (Herr : forall e, on_client_error pkg e <>
                             Return (CreateEntry title payload))
      by (intros e; destruct e; discriminate).
    destruct (api_construct api username password);
      [intros H; now apply Herr in H|].
    destruct (api_authenticate api username password);
      [intros H; now apply Herr in H|].
    cbv zeta.
    destruct (api_fetch_contracts api username password false)
      as [e|[|kv contracts]];
      [intros H; now apply Herr in H | discriminate |].
    destruct (truthy (py_get ui CONF_ADD_ALL_CONTRACTS)) eqn:Hall;
      cbn [negb].
    + destruct username as [| | |u|]; try discriminate.
      intros H. inversion H; subst. exists payload, u.
      repeat split; try assumption.
      intros Hreg. apply registered_iff in Hreg. congruence.
    + intros H. apply async_step_contract_no_input_post in H.
      destruct H as (s & c & _ & H). discriminate H.
  - rewrite async_step_import_cases. cbn [fst].
    destruct ui as [ui|]; [|discriminate].
    destruct (Dict.get CONF_USERNAME ui) as [username|] eqn:Hu; [|discriminate].
    destruct (existsb _ entries) eqn:Hfound; [discriminate|].
    destruct username as [| | |u|]; try discriminate.
    intros H. inversion H; subst. exists ui, u.
    repeat split; try assumption.
    intros Hreg. apply registered_iff in Hreg. congruence.
Qed.

Lemma entry_creation_conditions_witness :
  exists input u,
    Some (alice true) = Some input /\
    Dict.get CONF_USERNAME input = Some (VStr u) /\
    ~ registered [entry_of "bob"] u /\
    truthy (py_get input CONF_ADD_ALL_CONTRACTS) = true /\
    "User: alice" = "User: " ++ u /\ alice true = input.
Proof.
  apply (entry_creation_conditions (sample_package None)
           (api_single "C1") [entry_of "bob"] (Some (alice true)) world0
           "User: alice" (alice true)).
  reflexivity.
Defined.

(** ** The contract step from a fresh state *)

Lemma bind_returned {A B} (m : M A) (k : A -> M B) (w : World) a w1 :
  m w = (Return a, w1) -> bind m k w = k a w1.
Proof. intros H. unfold bind. now rewrite H. Qed.

(** Once the head of the step has run, running the step is running it from
    the world the head left. *)
Lemma async_step_contract_after_select (pkg : Package) (c : string)
  ui (w w1 : World) :
  select_contract_id w = (Return c, w1) ->
  _last_contract_id (handler w1) = Some c ->
  async_step_contract pkg ui w = async_step_contract pkg ui w1.
Proof.
  intros Hsel Hid. unfold async_step_contract. cbn [async_step_contract_fuel].
  rewrite (bind_returned _ _ w c w1 Hsel).
  now rewrite (bind_returned _ _ w1 c w1 (select_contract_id_set c w1 Hid)).
Qed.

(** X8.  The first visit of the contract step, with no contract id
    remembered yet and a non-empty pending mapping, takes the first key in
    insertion order out of the pending mapping and remembers it, whatever
    the input and however the step ends; without input it answers with the
    form for that key, or with [AttributeError] when [self.schema_contract]
    does not resolve. *)
Theorem contract_first_visit
  (pkg : Package) (k : string) (v : value) (rest : dict)
  (ui : option dict) (w : World) :
  _last_contract_id (handler w) = None ->
  _contracts (handler w) = Some ((k, v) :: rest) ->
  let r := async_step_contract pkg ui w in
  _last_contract_id (handler (snd r)) = Some k /\
  _contracts (handler (snd r)) = Some rest /\
  (ui = None ->
   fst r = match schema_contract pkg with
           | Some s =>
               Return (ShowForm "contract" s None (Some [("code", VStr k)]))
           | None => Raise AttributeError
           end).
Proof.
  intros Hid Hpend r. subst r.
  pose proof (select_contract_id_first k v rest w Hid Hpend) as Hsel.
  set (w1 := mkWorld (mkHandler (Some rest) (Some k)
                        (_current_config (handler w))) (api_log w)) in *.
  rewrite (async_step_contract_after_select pkg k ui w w1 Hsel eq_refl).
  destruct (async_step_contract_set pkg k ui w1 eq_refl) as (H1 & H2 & _).
  split; [exact H1|]. split; [exact H2|].
  intros ->. unfold async_step_contract.
  rewrite (async_step_contract_no_input_set pkg 1 k w1 eq_refl).
  now destruct (schema_contract pkg).
Qed.

Lemma contract_first_visit_witness :
  let w := mkWorld (mkHandler (Some [("C1", VDict []); ("C2", VDict [])])
                      None (Some [("contracts", VDict [])])) [] in
  let r := async_step_contract (sample_package (Some contract_form)) None w in
  _last_contract_id (handler (snd r)) = Some "C1" /\
  _contracts (handler (snd r)) = Some [("C2", VDict [])] /\
  (@None dict = None ->
   fst r = Return (ShowForm "contract" contract_form None
                     (Some [("code", VStr "C1")]))).
Proof.
  intros w.
  apply (contract_first_visit (sample_package (Some contract_form))
           "C1" (VDict []) [("C2", VDict [])] None w); reflexivity.
Defined.

(** X9.  Entered before the user step has stored a contract mapping, the
    contract step raises [AttributeError]; entered with an empty pending
    mapping and no contract id remembered it raises [IndexError].  Either
    way nothing is changed and no decision is recorded. *)
Theorem contract_step_nothing_pending
  (pkg : Package) (n : nat) (ui : option dict) (w : World) :
  _last_contract_id (handler w) = None ->
  (_contracts (handler w) = None ->
   async_step_contract_fuel pkg (S n) ui w = (Raise AttributeError, w)) /\
  (_contracts (handler w) = Some [] ->
   async_step_contract_fuel pkg (S n) ui w = (Raise IndexError, w)).
Proof.
  intros Hid. split; intros Hpend; cbn [async_step_contract_fuel];
    unfold bind at 1, select_contract_id; unfold_flow; simpl;
    now rewrite Hid, Hpend.
Qed.

Lemma contract_step_nothing_pending_witness :
  async_step_contract_fuel (sample_package None) 2
    (Some [(CONF_ENABLE_CONTRACT, VBool true)]) world0 =
    (Raise AttributeError, world0).
Proof.
  apply (contract_step_nothing_pending (sample_package None) 1
           (Some [(CONF_ENABLE_CONTRACT, VBool true)]) world0);
    reflexivity.
Defined.

(** ** The recorded decision *)

Lemma dict_set_not_nil {A} (k : string) (v : A) (d : list (string * A)) :
  Dict.set k v d <> [].
Proof.
  destruct d as [|[k' v'] d]; simpl; [discriminate|].
  destruct (String.eqb k k'); discriminate.
Qed.

Lemma decision_truth (pkg : Package) (ui : dict) :
  truthy (contract_config_of pkg ui) =
    truthy (py_get ui CONF_ENABLE_CONTRACT).
Proof.
  unfold contract_config_of.
  destruct (truthy (py_get ui CONF_ENABLE_CONTRACT)); [|reflexivity].
  cbn [truthy].
  destruct (Dict.set (CONF_INVOICES pkg) _ _) eqn:Hset; [|reflexivity].
  now apply dict_set_not_nil in Hset.
Qed.

(** X10.  The decision stored for a submitted contract form is truthy
    exactly when [enable_contract] is: [False] when it is not, and when it
    is, the mapping of the meters and invoices fields to the submitted
    values, [None] standing for a field the form did not carry. *)
Theorem decision_follows_enable_contract (pkg : Package) (ui : dict) :
  truthy (contract_config_of pkg ui) =
    truthy (py_get ui CONF_ENABLE_CONTRACT) /\
  (truthy (py_get ui CONF_ENABLE_CONTRACT) = false ->
   contract_config_of pkg ui = VBool false) /\
  (truthy (py_get ui CONF_ENABLE_CONTRACT) = true ->
   CONF_METERS pkg <> CONF_INVOICES pkg ->
   contract_config_of pkg ui =
   VDict [(CONF_METERS pkg, py_get ui (CONF_METERS pkg));
          (CONF_INVOICES pkg, py_get ui (CONF_INVOICES pkg))]).
Proof.
  unfold contract_config_of.
  destruct (truthy (py_get ui CONF_ENABLE_CONTRACT)) eqn:E.
  - split; [|split; [discriminate|]].
    + cbn [truthy].
      destruct (Dict.set (CONF_INVOICES pkg) _ _) eqn:Hset; [|reflexivity].
      now apply dict_set_not_nil in Hset.
    + intros _ Hne. cbn [Dict.set].
      destruct (String.eqb_spec (CONF_INVOICES pkg) (CONF_METERS pkg));
        [congruence | reflexivity].
  - split; [reflexivity|]. split; [reflexivity | discriminate].
Qed.

Lemma decision_follows_enable_contract_witness :
  contract_config_of (sample_package None)
    [(CONF_ENABLE_CONTRACT, VBool true); ("meters", VBool true)] =
  VDict [("meters", VBool true); ("invoices", VNone)] /\
  contract_config_of (sample_package None)
    [(CONF_ENABLE_CONTRACT, VInt 0); ("meters", VBool true)] = VBool false.
Proof.
  split.
  - apply (decision_follows_enable_contract (sample_package None)
             [(CONF_ENABLE_CONTRACT, VBool true); ("meters", VBool true)]);
      [reflexivity | discriminate].
  - apply (decision_follows_enable_contract (sample_package None)
             [(CONF_ENABLE_CONTRACT, VInt 0); ("meters", VBool true)]).
    reflexivity.
Defined.

(** X11.  A submitted contract form changes the pending configuration in
    one place only: the decision of the remembered contract.  Every other
    field of the configuration, username and password among them, and the
    decision of every other contract are what they were; this holds however
    the step ends. *)
Theorem record_decision_frame
  (pkg : Package) (c : string) (ui cfg decisions : dict) (w : World) :
  _last_contract_id (handler w) = Some c ->
  _current_config (handler w) = Some cfg ->
  Dict.get (CONF_CONTRACTS pkg) cfg = Some (VDict decisions) ->
  exists cfg' decisions',
    _current_config (handler (snd (async_step_contract pkg (Some ui) w))) =
      Some cfg' /\
    Dict.get (CONF_CONTRACTS pkg) cfg' = Some (VDict decisions') /\
    Dict.get c decisions' = Some (contract_config_of pkg ui) /\
    (forall other, other <> c ->
                   Dict.get other decisions' = Dict.get other decisions) /\
    (forall field, field <> CONF_CONTRACTS pkg ->
                   Dict.get field cfg' = Dict.get field cfg).
Proof.
  intros Hid Hcfg Hd.
  exists (Dict.set (CONF_CONTRACTS pkg)
            (VDict (Dict.set c (contract_config_of pkg ui) decisions)) cfg),
    (Dict.set c (contract_config_of pkg ui) decisions).
  split.
  - rewrite (async_step_contract_input_set pkg c ui cfg decisions w
               Hid Hcfg Hd).
    repeat case_match; reflexivity.
  - split; [apply DictFacts.get_set_same|].
    split; [apply DictFacts.get_set_same|].
    split; intros x Hx; now apply DictFacts.get_set_other.
Qed.

Lemma record_decision_frame_witness :
  exists cfg' decisions',
    _current_config
      (handler (snd (async_step_contract (sample_package None)
                       (Some [(CONF_ENABLE_CONTRACT, VBool false)])
                       world_mixed_decisions))) = Some cfg' /\
    Dict.get "contracts" cfg' = Some (VDict decisions') /\
    Dict.get "C2" decisions' = Some (VBool false) /\
    (forall other, other <> "C2" ->
                   Dict.get other decisions' =
                   Dict.get other [("C1", VBool false)]) /\
    (forall field, field <> "contracts" ->
                   Dict.get field cfg' =
                   Dict.get field
                     (alice false ++
                      [("contracts", VDict [("C1", VBool false)])])%list).
Proof.
  apply (record_decision_frame (sample_package None) "C2"
           [(CONF_ENABLE_CONTRACT, VBool false)]
           (alice false ++ [("contracts", VDict [("C1", VBool false)])])%list
           [("C1", VBool false)] world_mixed_decisions); reflexivity.
Defined.

(** X12.  The contract step calls itself at most once: its self-call passes
    no input, and a call without input returns before the point where the
    step calls itself.  So one level of recursion is all that is ever used,
    more fuel changes nothing, and every call returns or raises. *)
Theorem contract_step_recursion_depth
  (pkg : Package) (n : nat) (ui : option dict) (w : World) :
  async_step_contract_fuel pkg (S (S n)) ui w = async_step_contract pkg ui w /\
  async_step_contract_fuel pkg (S n) None w =
    async_step_contract pkg None w /\
  fst (async_step_contract pkg ui w) <> OutOfFuel.
Proof.
  split; [apply async_step_contract_fuel_enough|].
  split; [reflexivity | apply async_step_contract_total].
Qed.

(** ** From the user step into the contract step *)

Section IntoContractStep.

Variable pkg : Package.
Variable api : MosoblgazAPI.
Variable entries : list ConfigEntry.

(** The user step on a submission that logs in, gets contracts and does
    not ask for all of them: the contract step without input, run on the
    pending state. *)
Lemma async_step_user_selecting
  (ui : dict) (username password : value) (contracts : dict) (w : World) :
  Dict.get CONF_USERNAME ui = Some username ->
  unregistered entries username ->
  Dict.get CONF_PASSWORD ui = Some password ->
  api_construct api username password = None ->
  api_authenticate api username password = None ->
  api_fetch_contracts api username password false = inr contracts ->
  contracts <> [] ->
  truthy (py_get ui CONF_ADD_ALL_CONTRACTS) = false ->
  async_step_user pkg api entries (Some ui) w =
  async_step_contract pkg None
    (pending_state pkg ui contracts (logged (full_login username password) w)).
Proof.
  intros Hu Hfree Hp Hc Ha Hf Hne Hall. apply unregistered_iff in Hfree.
  rewrite async_step_user_cases, Hu, Hfree, Hp, Hc, Ha, Hf, Hall.
  destruct contracts; [contradiction | reflexivity].
Qed.

Lemma pending_state_decisions (ui contracts : dict) (w : World) :
  decisions_of pkg (handler (pending_state pkg ui contracts w)) = Some [].
Proof.
  unfold decisions_of, pending_state. cbn [handler _current_config].
  now rewrite DictFacts.get_set_same.
Qed.

End IntoContractStep.

(** X13.  A first submission that logs in, gets a non-empty contract
    mapping and does not ask for all contracts sets up the pending state
    and makes the first visit of the contract step at once: the first
    contract in insertion order is remembered and shown, the other ones stay
    pending, the pending configuration is the submitted mapping with an
    empty decisions mapping under the contracts field (whatever the
    submission carried there), and the client has been called three
    times. *)
Theorem user_step_enters_contract_step
  (pkg : Package) (api : MosoblgazAPI) (entries : list ConfigEntry)
  (ui : dict) (username password : value)
  (k : string) (v : value) (rest : dict) (w : World) :
  Dict.get CONF_USERNAME ui = Some username ->
  unregistered entries username ->
  Dict.get CONF_PASSWORD ui = Some password ->
  api_construct api username password = None ->
  api_authenticate api username password = None ->
  api_fetch_contracts api username password false = inr ((k, v) :: rest) ->
  truthy (py_get ui CONF_ADD_ALL_CONTRACTS) = false ->
  _last_contract_id (handler w) = None ->
  let r := async_step_user pkg api entries (Some ui) w in
  fst r = match schema_contract pkg with
          | Some s =>
              Return (ShowForm "contract" s None (Some [("code", VStr k)]))
          | None => Raise AttributeError
          end /\
  handler (snd r) =
    mkHandler (Some rest) (Some k)
      (Some (Dict.set (CONF_CONTRACTS pkg) (VDict []) (Dict.update [] ui))) /\
  api_log (snd r) = (api_log w ++ full_login username password)%list /\
  decisions_of pkg (handler (snd r)) = Some [] /\
  (Dict.wf ui ->
   forall field cfg,
     field <> CONF_CONTRACTS pkg ->
     _current_config (handler (snd r)) = Some cfg ->
     Dict.get field cfg = Dict.get field ui).
Proof.
  intros Hu Hfree Hp Hc Ha Hf Hall Hid r. subst r.
  rewrite (async_step_user_selecting pkg api entries ui username password
             ((k, v) :: rest) w Hu Hfree Hp Hc Ha Hf)
    by (discriminate || assumption).
  set (w0 := pending_state pkg ui ((k, v) :: rest)
               (logged (full_login username password) w)).
  assert (Hrun : async_step_contract pkg None w0 =
                 (match schema_contract pkg with
                  | Some s =>
                      Return (ShowForm "contract" s None
                                (Some [("code", VStr k)]))
                  | None => Raise AttributeError
                  end,
                  mkWorld
                    (mkHandler (Some rest) (Some k)
                       (Some (Dict.set (CONF_CONTRACTS pkg) (VDict [])
                                (Dict.update [] ui))))
                    (api_log w ++ full_login username password))).
  { unfold async_step_contract. cbn [async_step_contract_fuel].
    rewrite (bind_returned _ _ w0 k _
               (select_contract_id_first k v rest w0 Hid eq_refl)).
    unfold get_schema_contract. unfold_flow.
    now destruct (schema_contract pkg). }
  rewrite Hrun. cbn [fst snd handler api_log].
  repeat split.
  - unfold decisions_of. cbn [_current_config].
    now rewrite DictFacts.get_set_same.
  - intros Hwf field cfg Hfield Hcfg. cbn [_current_config] in Hcfg.
    inversion Hcfg; subst cfg.
    rewrite DictFacts.get_set_other by assumption.
    now apply DictFacts.get_update_nil.
Qed.

Lemma user_step_enters_contract_step_witness :
  let r := async_step_user (sample_package (Some contract_form))
             (api_listing [("C1", VDict []); ("C2", VDict [])])
             [entry_of "bob"] (Some (alice false)) world0 in
  fst r = Return (ShowForm "contract" contract_form None
                    (Some [("code", VStr "C1")])) /\
  handler (snd r) =
    mkHandler (Some [("C2", VDict [])]) (Some "C1")
      (Some (Dict.set "contracts" (VDict [])
               (Dict.update [] (alice false)))) /\
  api_log (snd r) = ([] ++ full_login (VStr "alice") (VStr "x"))%list.
Proof.
  intros r.
  destruct (user_step_enters_contract_step
              (sample_package (Some contract_form))
              (api_listing [("C1", VDict []); ("C2", VDict [])])
              [entry_of "bob"] (alice false) (VStr "alice") (VStr "x")
              "C1" (VDict []) [("C2", VDict [])] world0)
    as (H1 & H2 & H3 & _); try reflexivity.
  - intros e [<-|[]]. reflexivity.
  - split; [exact H1|]. split; [exact H2 | exact H3].
Defined.

(** X14.  With a single contract listed the wizard ends on the first
    submitted contract form: the decision for that contract is the only one
    on record, and the step raises, [TypeError] (from the positional call
    of [async_abort]) when the contract was enabled and [NameError] when it
    was not. *)
Theorem single_contract_flow
  (pkg : Package) (api : MosoblgazAPI) (entries : list ConfigEntry)
  (ui input : dict) (username password : value)
  (k : string) (v : value) (w : World) :
  Dict.get CONF_USERNAME ui = Some username ->
  unregistered entries username ->
  Dict.get CONF_PASSWORD ui = Some password ->
  api_construct api username password = None ->
  api_authenticate api username password = None ->
  api_fetch_contracts api username password false = inr [(k, v)] ->
  truthy (py_get ui CONF_ADD_ALL_CONTRACTS) = false ->
  _last_contract_id (handler w) = None ->
  let w1 := snd (async_step_user pkg api entries (Some ui) w) in
  let r := async_step_contract pkg (Some input) w1 in
  fst r = (if truthy (py_get input CONF_ENABLE_CONTRACT)
           then Raise TypeError
           else Raise NameError) /\
  decisions_of pkg (handler (snd r)) =
    Some [(k, contract_config_of pkg input)].
Proof.
  intros Hu Hfree Hp Hc Ha Hf Hall Hid w1 r.
  assert (Hw1 : handler w1 =
                mkHandler (Some []) (Some k)
                  (Some (Dict.set (CONF_CONTRACTS pkg) (VDict [])
                           (Dict.update [] ui)))).
  { subst w1.
    rewrite (async_step_user_selecting pkg api entries ui username password
               [(k, v)] w Hu Hfree Hp Hc Ha Hf)
      by (discriminate || assumption).
    set (w0 := pending_state pkg ui [(k, v)]
                 (logged (full_login username password) w)).
    unfold async_step_contract. cbn [async_step_contract_fuel].
    rewrite (bind_returned _ _ w0 k _
               (select_contract_id_first k v [] w0 Hid eq_refl)).
    unfold get_schema_contract. unfold_flow.
    now destruct (schema_contract pkg). }
  assert (Hid1 : _last_contract_id (handler w1) = Some k)
    by now rewrite Hw1.
  assert (Hcfg1 : _current_config (handler w1) =
                  Some (Dict.set (CONF_CONTRACTS pkg) (VDict [])
                          (Dict.update [] ui)))
    by now rewrite Hw1.
  assert (Hpend1 : _contracts (handler w1) = Some []) by now rewrite Hw1.
  pose proof (DictFacts.get_set_same (CONF_CONTRACTS pkg) (VDict [])
                (Dict.update [] ui)) as Hd1.
  subst r. split.
  - rewrite (contract_step_exhausted pkg k input _ [] w1
               Hid1 Hpend1 Hcfg1 Hd1).
    cbn [Dict.set Dict.values map forallb].
    cbn [snd]. now rewrite decision_truth, andb_true_r.
  - rewrite (async_step_contract_input_set pkg k input _ [] w1
               Hid1 Hcfg1 Hd1).
    rewrite Hpend1. cbn [dict_truthy].
    assert (Hw : decisions_of pkg
                   (handler (with_decision pkg k (contract_config_of pkg input)
                               (Dict.set (CONF_CONTRACTS pkg) (VDict [])
                                  (Dict.update [] ui)) [] w1)) =
                 Some [(k, contract_config_of pkg input)]).
    { unfold decisions_of, with_decision. cbn [handler _current_config].
      now rewrite DictFacts.get_set_same. }
    case_match; exact Hw.
Qed.

Lemma single_contract_flow_witness :
  let pkg := sample_package (Some contract_form) in
  let w1 := snd (async_step_user pkg (api_single "C1") []
                   (Some (alice false)) world0) in
  let r := async_step_contract pkg
             (Some [(CONF_ENABLE_CONTRACT, VBool false)]) w1 in
  fst r = Raise NameError /\
  decisions_of pkg (handler (snd r)) = Some [("C1", VBool false)].
Proof.
  intros pkg.
  apply (single_contract_flow pkg (api_single "C1") [] (alice false)
           [(CONF_ENABLE_CONTRACT, VBool false)] (VStr "alice") (VStr "x")
           "C1" (VDict []) world0); try reflexivity.
  intros e [].
Defined.

(** X15.  A submission of the user step made when a contract id is
    already remembered starts the pending state over, but not the
    remembered id: the whole new contract mapping is pending, nothing is
    taken out of it, the decisions recorded so far are gone, and the
    contract form shown is the one for the id remembered before. *)
Theorem user_step_again_keeps_contract_id
  (pkg : Package) (api : MosoblgazAPI) (entries : list ConfigEntry)
  (ui : dict) (username password : value)
  (contracts : dict) (c : string) (w : World) :
  Dict.get CONF_USERNAME ui = Some username ->
  unregistered entries username ->
  Dict.get CONF_PASSWORD ui = Some password ->
  api_construct api username password = None ->
  api_authenticate api username password = None ->
  api_fetch_contracts api username password false = inr contracts ->
  contracts <> [] ->
  truthy (py_get ui CONF_ADD_ALL_CONTRACTS) = false ->
  _last_contract_id (handler w) = Some c ->
  let r := async_step_user pkg api entries (Some ui) w in
  fst r = match schema_contract pkg with
          | Some s =>
              Return (ShowForm "contract" s None (Some [("code", VStr c)]))
          | None => Raise AttributeError
          end /\
  _contracts (handler (snd r)) = Some contracts /\
  _last_contract_id (handler (snd r)) = Some c /\
  decisions_of pkg (handler (snd r)) = Some [].
Proof.
  intros Hu Hfree Hp Hc Ha Hf Hne Hall Hid r. subst r.
  rewrite (async_step_user_selecting pkg api entries ui username password
             contracts w Hu Hfree Hp Hc Ha Hf Hne Hall).
  set (w0 := pending_state pkg ui contracts
               (logged (full_login username password) w)).
  unfold async_step_contract.
  rewrite (async_step_contract_no_input_set pkg 1 c w0 Hid).
  destruct (schema_contract pkg); cbn [fst snd]; repeat split;
    try exact Hid; apply pending_state_decisions.
Qed.

Lemma user_step_again_keeps_contract_id_witness :
  let r := async_step_user (sample_package (Some contract_form))
             (api_listing [("C7", VDict []); ("C8", VDict [])]) []
             (Some (alice false)) world_mixed_decisions in
  fst r = Return (ShowForm "contract" contract_form None
                    (Some [("code", VStr "C2")])) /\
  _contracts (handler (snd r)) = Some [("C7", VDict []); ("C8", VDict [])] /\
  _last_contract_id (handler (snd r)) = Some "C2" /\
  decisions_of (sample_package (Some contract_form)) (handler (snd r)) =
    Some [].
Proof.
  apply (user_step_again_keeps_contract_id
           (sample_package (Some contract_form))
           (api_listing [("C7", VDict []); ("C8", VDict [])]) []
           (alice false) (VStr "alice") (VStr "x")
           [("C7", VDict []); ("C8", VDict [])] "C2" world_mixed_decisions);
    try reflexivity.
  - intros e [].
  - discriminate.
Defined.

(** X16.  Whatever the client does, a submission whose [add_all_contracts]
    is truthy leaves the handler state as it was, and so does a call of the
    user step without input: the pending registration state is set up on
    the way into the contract step and nowhere else. *)
Theorem user_step_add_all_keeps_handler
  (pkg : Package) (api : MosoblgazAPI) (entries : list ConfigEntry)
  (ui : dict) (w : World) :
  handler (snd (async_step_user pkg api entries None w)) = handler w /\
  (truthy (py_get ui CONF_ADD_ALL_CONTRACTS) = true ->
   handler (snd (async_step_user pkg api entries (Some ui) w)) = handler w).
Proof.
  split; [reflexivity|]. intros Hall.
  rewrite async_step_user_cases, Hall. cbn [negb].
  repeat case_match; reflexivity.
Qed.

Lemma user_step_add_all_keeps_handler_witness :
  handler (snd (async_step_user (sample_package None)
                  (api_fetch_failing PartialOfflineException) []
                  (Some (alice true)) world_two_contracts)) =
  handler world_two_contracts.
Proof.
  apply (user_step_add_all_keeps_handler (sample_package None)
           (api_fetch_failing PartialOfflineException) []
           (alice true) world_two_contracts).
  reflexivity.
Defined.

(** ** The options wizard on other entries *)

(** X17.  On an entry whose version is not 1 the options wizard's user step
    takes its form defaults from the options alone: each default is the
    option's value when the options hold the field and the fixed default
    otherwise, and the entry's data play no part, even when they hold the
    field. *)
Theorem options_defaults_ignore_data
  (pkg : Package) (entry : ConfigEntry) (other_data : dict) :
  version entry <> 1%Z ->
  OptionsFlow.default_invert_invoices pkg entry =
    py_get_default (options entry) (CONF_INVERT_INVOICES pkg)
      (DEFAULT_INVERT_INVOICES pkg) /\
  OptionsFlow.default_timeout pkg entry =
    py_get_default (options entry) CONF_TIMEOUT
      (DEFAULT_TIMEOUT_total_seconds pkg) /\
  OptionsFlow.default_scan_interval pkg entry =
    py_get_default (options entry) CONF_SCAN_INTERVAL
      (DEFAULT_SCAN_INTERVAL_total_seconds pkg) /\
  OptionsFlow.async_step_user pkg entry None =
    OptionsFlow.async_step_user pkg
      (mkConfigEntry other_data (options entry) (version entry)
         (source entry)) None.
Proof.
  intros Hv.
  assert (Hres : forall d,
             OptionsFlow.resolved_options
               (mkConfigEntry d (options entry) (version entry)
                  (source entry)) = options entry).
  { intros d. unfold OptionsFlow.resolved_options.
    cbn [options version data].
    destruct (Z.eqb_spec (version entry) 1); [contradiction|].
    now destruct (options entry). }
  assert (Hres0 : OptionsFlow.resolved_options entry = options entry).
  { destruct entry as [d o ve so]. apply (Hres d). }
  unfold OptionsFlow.async_step_user, OptionsFlow.default_invert_invoices,
    OptionsFlow.default_timeout, OptionsFlow.default_scan_interval.
  rewrite Hres0, Hres. repeat split.
Qed.

Lemma options_defaults_ignore_data_witness :
  OptionsFlow.default_timeout (sample_package None) current_entry = VInt 45 /\
  OptionsFlow.default_scan_interval (sample_package None) current_entry =
    VInt 3600.
Proof.
  destruct (options_defaults_ignore_data (sample_package None) current_entry
              []) as (_ & Ht & Hs & _); [discriminate|].
  split; [exact Ht | exact Hs].
Defined.

(** X18.  For an entry that did not come from the import path the options
    wizard's init step is its user step: a submitted mapping becomes the
    data of the created entry as it is, with the empty title, whatever the
    entry holds; without input the user form is shown. *)
Theorem options_init_on_ui_entry
  (pkg : Package) (entry : ConfigEntry) (ui : dict) :
  source entry <> SOURCE_IMPORT ->
  OptionsFlow.async_step_init pkg entry (Some ui) = CreateEntry "" ui /\
  OptionsFlow.async_step_init pkg entry None =
    OptionsFlow.async_step_user pkg entry None.
Proof.
  intros Hsrc. unfold OptionsFlow.async_step_init.
  destruct (String.eqb_spec (source entry) SOURCE_IMPORT); [contradiction|].
  split; reflexivity.
Qed.

Lemma options_init_on_ui_entry_witness :
  OptionsFlow.async_step_init (sample_package None) legacy_entry
    (Some [(CONF_TIMEOUT, VInt 20)]) =
  CreateEntry "" [(CONF_TIMEOUT, VInt 20)].
Proof.
  apply (options_init_on_ui_entry (sample_package None) legacy_entry
           [(CONF_TIMEOUT, VInt 20)]).
  discriminate.
Defined.
